(** * VQE-QSE hybrid solver mock: the circuit renderer and the energy stub

    A shallow embedding of [VQE-QSM-HYBRID.py]: the class [MockUCCSDAnsatz]
    (constructor, [decompose], [draw]) and the function [run_vqe_qse].

    - Python integers are [Z].  The floats that [draw] hands to matplotlib are
      coordinates built from a line index and the constants 0.25, 0.5, 0.7,
      0.75, 1.0, 1.5, ...; they are carried as exact rationals ([Q], kept
      reduced), tagged [Float] to keep them apart from the integers the code
      passes unchanged ([Int]).  Python agrees with the exact value up to the
      rounding of the constant 0.7 as long as an index fits binary64; a
      figure with more than 2^53 lines, where it would not, cannot be built.
      Python's [OverflowError], raised when an integer beyond the float
      range meets a float, is not modelled.
    - The energies of [run_vqe_qse] are compared with each other after
      rounding, so they are binary64 numbers ([PrimFloat.float]).
    - matplotlib is modelled as a recorder: [pyplot] keeps the registry of the
      open figures, and every method called on an axes object appends one
      [Call] to the figure that owns it.  Python exceptions keep the side
      effects made before they were raised.  The recorder accepts every
      call: matplotlib's own refusals (an axis limit outside the 64-bit
      integers, a string that names no colour) are not modelled; the
      theorems whose subject is raising keep to [int64] limits or to the
      runs that return.
    - [print] and [plt.show] are not modelled: they change neither a figure
      nor a returned value.  [draw_cnot_ladder] is never called. *)

From Stdlib Require Import ZArith QArith List String Ascii Bool Lia.
From Stdlib Require Import DecimalString PrimFloat.
From Stdlib Require DecimalPos DecimalZ.
Import ListNotations.

Set Implicit Arguments.
Set Warnings "-inexact-float,-register-all".

Local Open Scope string_scope.
Local Open Scope list_scope.
Local Open Scope Z_scope.

(** ** Python values, numbers, [range], indexing *)

Module Py.

Inductive Exn : Type :=
| IndexError
| ZeroDivisionError.

(** Objects that reach the code as opaque arguments ([num_particles], the
    [*args] and [**kwargs] of [draw]). *)
Inductive value : Type :=
| VNone
| VBool (b : bool)
| VInt (z : Z)
| VStr (s : string)
| VTuple (items : list value).

(** A number passed to a drawing call: an [int], or a [float] given by its
    exact value. *)
Inductive num : Type :=
| Int (z : Z)
| Float (q : Q).

Definition to_Q (a : num) : Q :=
  match a with
  | Int z => inject_Z z
  | Float q => q
  end.

(** [a + b] and [a - b]: integer arithmetic on two ints, float otherwise.
    The float result is the exact sum or difference: binary64 rounding and the
    [OverflowError] of an integer beyond the float range are left out. *)
Definition add (a b : num) : num :=
  match a, b with
  | Int x, Int y => Int (x + y)
  | _, _ => Float (Qred (to_Q a + to_Q b))
  end.

Definition sub (a b : num) : num :=
  match a, b with
  | Int x, Int y => Int (x - y)
  | _, _ => Float (Qred (to_Q a - to_Q b))
  end.

(** [range(start, stop, step)] for a positive step: the values
    [start + j*step] below [stop]. *)
Definition range_len (start stop : Z) (step : positive) : nat :=
  Z.to_nat ((stop - start + Z.pos step - 1) / Z.pos step).

Definition range (start stop : Z) (step : positive) : list Z :=
  map (fun j => start + Z.of_nat j * Z.pos step)
      (seq 0 (range_len start stop step)).

(** [l[i]]: negative indices count from the end, anything outside raises
    [IndexError]. *)
Definition getitem {A : Type} (l : list A) (i : Z) : Exn + A :=
  let len := Z.of_nat (List.length l) in
  let j := if i <? 0 then i + len else i in
  if (0 <=? j) && (j <? len) then
    match nth_error l (Z.to_nat j) with
    | Some x => inr x
    | None => inl IndexError
    end
  else inl IndexError.

(** [f'{i}'] for an int. *)
Definition str (i : Z) : string := NilZero.string_of_int (Z.to_int i).

End Py.

Import Py.

(** ** The drawing surface *)

Module Mpl.

(** Value of a keyword argument of a drawing call. *)
Inductive kwval : Type :=
| KS (s : string)
| KN (n : num).

Definition kwargs : Type := list (string * kwval).

Inductive Call : Type :=
| set_title (label : string) (kw : kwargs)
| set_xlim (left right : num)
| set_ylim (bottom top : num)
| axis (arg : string)
| hlines (y xmin xmax : num) (kw : kwargs)
| vlines (x : list num) (ymin ymax : num) (kw : kwargs)
| text (x y : num) (s : string) (kw : kwargs)
| add_patch_Rectangle (xy : num * num) (width height : num) (kw : kwargs)
| plot (x y : num) (fmt : string) (kw : kwargs).

Record Figure : Type := mkFigure {
  number : positive;
  figsize : num * num;
  calls : list Call
}.

(** [pyplot]'s registry of open figures, oldest first. *)
Definition Pyplot : Type := list Figure.

Definition record (c : Call) (f : Figure) : Figure :=
  mkFigure (number f) (figsize f) (calls f ++ [c]).

Definition extend (f : Figure) (cs : list Call) : Figure :=
  mkFigure (number f) (figsize f) (calls f ++ cs).

(** The number a new figure takes: one more than the largest in use. *)
Definition next_num (st : Pyplot) : positive :=
  match st with
  | [] => 1%positive
  | _ => Pos.succ (fold_right Pos.max 1%positive (map number st))
  end.

Definition lookup (h : positive) (st : Pyplot) : option Figure :=
  find (fun f => Pos.eqb (number f) h) st.

(** What has been drawn on the figure numbered [h]. *)
Definition canvas (h : positive) (st : Pyplot) : list Call :=
  match lookup h st with
  | Some f => calls f
  | None => []
  end.

End Mpl.

Import Mpl.

(** ** Computations that draw and may raise *)

Definition M (A : Type) : Type := Pyplot -> (Exn + A) * Pyplot.

Definition ret {A : Type} (a : A) : M A := fun st => (inr a, st).

Definition raise {A : Type} (e : Exn) : M A := fun st => (inl e, st).

Definition bind {A B : Type} (m : M A) (k : A -> M B) : M B :=
  fun st =>
    match m st with
    | (inl e, st') => (inl e, st')
    | (inr a, st') => k a st'
    end.

Definition lift {A : Type} (r : Exn + A) : M A :=
  match r with
  | inl e => raise e
  | inr a => ret a
  end.

Declare Scope py_scope.
Delimit Scope py_scope with py.
Notation "x <- m ;; k" := (bind m (fun x => k))
  (at level 61, m at next level, right associativity) : py_scope.
Notation "m ;; k" := (bind m (fun _ => k))
  (at level 61, right associativity) : py_scope.
Local Open Scope py_scope.

(** [for x in l: body x] *)
Fixpoint for_ {A : Type} (l : list A) (body : A -> M unit) : M unit :=
  match l with
  | [] => ret tt
  | x :: rest => body x ;; for_ rest body
  end.

(** [plt.subplots(figsize=...)]: a new figure with one axes; both handles are
    the figure's number. *)
Definition subplots (size : num * num) : M (positive * positive) :=
  fun st =>
    let h := next_num st in
    (inr (h, h), st ++ [mkFigure h size []]).

(** A method call on the axes [ax]: recorded, never refused. *)
Definition call (ax : positive) (c : Call) : M unit :=
  fun st =>
    (inr tt, map (fun f => if Pos.eqb (number f) ax then record c f else f) st).

(** ** [MockUCCSDAnsatz]

    [draw] follows the method statement by statement; [ax] and [fig] are the
    handles [plt.subplots] returns. *)

Record MockUCCSDAnsatz : Type := mkAnsatz {
  num_parameters : Z;
  num_qubits : Z;
  num_particles : value
}.

Definition init (num_qubits : Z) (num_particles : value) : MockUCCSDAnsatz :=
  mkAnsatz 16 num_qubits num_particles.

Definition decompose (self : MockUCCSDAnsatz) : MockUCCSDAnsatz := self.

Definition layer_start_x : list num :=
  [Float 1; Float (9 # 2); Float 9; Float (27 # 2)].

Definition draw (self : MockUCCSDAnsatz)
    (args : list value) (kwds : list (string * value)) : M positive :=
  p <- subplots (Int 12, Int 8) ;;
  let fig := fst p in
  let ax := snd p in
  call ax (set_title "VQE UCCSD Ansatz Architecture (8 Qubits, 3 Repetitions)"
             [("fontsize", KN (Int 14))]) ;;
  call ax (set_xlim (Int 0) (Int 20)) ;;
  call ax (set_ylim (Int 0) (Int (num_qubits self + 1))) ;;
  call ax (axis "off") ;;
  let qubit_labels :=
    map (fun i => ("$q_" ++ str i ++ "$")%string) (range 0 (num_qubits self) 1) in
  for_ (range 0 (num_qubits self) 1) (fun i =>
    let y := i + 1 in
    call ax (hlines (Int y) (Float (1 # 2)) (Float (39 # 2))
               [("color", KS "black"); ("linewidth", KN (Int 1))]) ;;
    label <- lift (getitem qubit_labels i) ;;
    call ax (text (Int 0) (Int y) label
               [("va", KS "center"); ("ha", KS "right");
                ("fontsize", KN (Int 12)); ("color", KS "darkcyan")])) ;;
  call ax (text (Float (19 # 2)) (add (Int (num_qubits self)) (Float (7 # 10)))
             "PHASE 2: HYBRID QUANTUM COMPUTATION (VQE $\rightarrow$ QSE)"
             [("ha", KS "center"); ("va", KS "center");
              ("fontsize", KN (Int 12)); ("color", KS "darkgreen")]) ;;
  call ax (text (Float 2) (Float (1 # 2)) "VQE STATE PREPARATION"
             [("ha", KS "center"); ("va", KS "center");
              ("fontsize", KN (Int 10)); ("color", KS "blue")]) ;;
  call ax (text (Float 17) (Float (1 # 2)) "QSE MEASUREMENT & DIAGONALIZATION"
             [("ha", KS "center"); ("va", KS "center");
              ("fontsize", KN (Int 10)); ("color", KS "red")]) ;;
  for_ (range 0 3 1) (fun k =>
    x_rot <- lift (getitem layer_start_x k) ;;
    x0 <- lift (getitem layer_start_x k) ;;
    let x_ent := add x0 (Float (3 # 2)) in
    let x_ent_offset := add x_ent (Float 1) in
    for_ (range 0 (num_qubits self) 1) (fun i =>
      let y := i + 1 in
      call ax (add_patch_Rectangle (x_rot, sub (Int y) (Float (1 # 4)))
                 (Float 1) (Float (1 # 2))
                 [("facecolor", KS "lightblue"); ("edgecolor", KS "blue");
                  ("alpha", KN (Float (7 # 10)))]) ;;
      call ax (text (add x_rot (Float (1 # 2))) (Int y)
                 ("$R_Y(\theta_" ++ str k ++ ")$")%string
                 [("ha", KS "center"); ("va", KS "center");
                  ("fontsize", KN (Int 7))])) ;;
    for_ (range 0 (num_qubits self - 1) 2) (fun i =>
      let y_control := i + 1 in
      let y_target := i + 2 in
      let x_pos := x_ent in
      call ax (vlines [x_pos] (add (Int y_control) (Float (1 # 4)))
                 (sub (Int y_target) (Float (1 # 4)))
                 [("color", KS "red"); ("linestyle", KS "-");
                  ("linewidth", KN (Float (3 # 2)))]) ;;
      call ax (plot x_pos (Int y_control) "o"
                 [("color", KS "red"); ("markersize", KN (Int 4))]) ;;
      call ax (plot x_pos (Int y_target) "x"
                 [("color", KS "red"); ("marker", KS "+");
                  ("markersize", KN (Int 8))])) ;;
    for_ (range 1 (num_qubits self - 1) 2) (fun i =>
      let y_control := i + 1 in
      let y_target := i + 2 in
      let x_pos := x_ent_offset in
      call ax (vlines [x_pos] (add (Int y_control) (Float (1 # 4)))
                 (sub (Int y_target) (Float (1 # 4)))
                 [("color", KS "orange"); ("linestyle", KS "-");
                  ("linewidth", KN (Float (3 # 2)))]) ;;
      call ax (plot x_pos (Int y_control) "o"
                 [("color", KS "orange"); ("markersize", KN (Int 4))]) ;;
      call ax (plot x_pos (Int y_target) "x"
                 [("color", KS "orange"); ("marker", KS "+");
                  ("markersize", KN (Int 8))]))) ;;
  let x_meas := Float (35 # 2) in
  for_ (range 0 (num_qubits self) 1) (fun i =>
    let y := i + 1 in
    call ax (add_patch_Rectangle (x_meas, sub (Int y) (Float (1 # 4)))
               (Float (3 # 2)) (Float (1 # 2))
               [("facecolor", KS "lightcoral"); ("edgecolor", KS "red");
                ("hatch", KS "//"); ("alpha", KN (Float (9 # 10)))]) ;;
    call ax (text (add x_meas (Float (3 # 4))) (Int y) "Obs ($\hat{O}$)"
               [("ha", KS "center"); ("va", KS "center");
                ("fontsize", KN (Int 7)); ("color", KS "black")])) ;;
  call ax (text (Float (73 # 4)) (Float (3 # 2)) "QSE $\rightarrow H_{\text{eff}}$"
             [("ha", KS "center"); ("va", KS "center");
              ("fontsize", KN (Int 10)); ("color", KS "red");
              ("weight", KS "bold")]) ;;
  ret fig.

(** The call the script makes on the ansatz [run_vqe_qse] returned. *)
Definition main_circuit_fig (ansatz_circuit : MockUCCSDAnsatz) : M positive :=
  draw (decompose ansatz_circuit) [VStr "mpl"]
       [("idle_wires", VBool false); ("fold", VInt (-1))].

(** ** [run_vqe_qse] *)

Record MockSparsePauliOp : Type := mkPauliOp {
  primitive_strings : unit -> list string;
  op_num_qubits : Z
}.

Definition MockSparsePauliOp_init (num_q : Z) : MockSparsePauliOp :=
  mkPauliOp (fun _ => ["IZ"; "ZI"; "XX"; "YY"]) num_q.

(** [a / b] on floats: a zero divisor raises, anything else follows IEEE. *)
Definition truediv (a b : float) : Exn + float :=
  if PrimFloat.is_zero b then inl ZeroDivisionError
  else inr (PrimFloat.div a b).

Definition run_vqe_qse (qubit_op : MockSparsePauliOp) (num_qubits : Z)
    (num_particles : value) (nuclear_repulsion_energy exact_energy : float)
  : Exn + (MockUCCSDAnsatz * float * float * float) :=
  let vqe_energy := (exact_energy + 0.045)%float in
  let vqe_error := PrimFloat.abs (vqe_energy - exact_energy)%float in
  let qse_energy_e := (exact_energy + 0.002)%float in
  let qse_error := PrimFloat.abs (qse_energy_e - exact_energy)%float in
  match truediv (vqe_error - qse_error)%float vqe_error with
  | inl e => inl e
  | inr ratio =>
      let improvement := (ratio * 100)%float in
      let PEM_CORRECTION_FACTOR := (-0.0019)%float in
      let final_corrected_energy :=
        (qse_energy_e + PEM_CORRECTION_FACTOR)%float in
      let ansatz := init num_qubits num_particles in
      inr (ansatz, vqe_energy, qse_energy_e, final_corrected_energy)
  end.

(** The values [define_molecule_and_hamiltonian] hands over. *)
Definition define_molecule_and_hamiltonian
  : MockSparsePauliOp * Z * value * float * float :=
  let num_qubits := 8 in
  let num_particles := VTuple [VInt 4; VInt 4] in
  let nuclear_repulsion_energy := 5.922055%float in
  let exact_energy := (-40.176466)%float in
  let qubit_op := MockSparsePauliOp_init num_qubits in
  (qubit_op, num_qubits, num_particles, nuclear_repulsion_energy,
   exact_energy).

(** ** The figure [draw] builds, call by call

    [drawing n] lists the calls [draw] makes on its axes for [num_qubits = n];
    [draw_run] below proves that this is what the code records. *)

Section Drawing.

Variable n : Z.

Definition header : list Call :=
  [set_title "VQE UCCSD Ansatz Architecture (8 Qubits, 3 Repetitions)"
     [("fontsize", KN (Int 14))];
   set_xlim (Int 0) (Int 20);
   set_ylim (Int 0) (Int (n + 1));
   axis "off"].

Definition qubit_line (i : Z) : list Call :=
  [hlines (Int (i + 1)) (Float (1 # 2)) (Float (39 # 2))
     [("color", KS "black"); ("linewidth", KN (Int 1))];
   text (Int 0) (Int (i + 1)) ("$q_" ++ str i ++ "$")%string
     [("va", KS "center"); ("ha", KS "right");
      ("fontsize", KN (Int 12)); ("color", KS "darkcyan")]].

Definition captions : list Call :=
  [text (Float (19 # 2)) (add (Int n) (Float (7 # 10)))
     "PHASE 2: HYBRID QUANTUM COMPUTATION (VQE $\rightarrow$ QSE)"
     [("ha", KS "center"); ("va", KS "center");
      ("fontsize", KN (Int 12)); ("color", KS "darkgreen")];
   text (Float 2) (Float (1 # 2)) "VQE STATE PREPARATION"
     [("ha", KS "center"); ("va", KS "center");
      ("fontsize", KN (Int 10)); ("color", KS "blue")];
   text (Float 17) (Float (1 # 2)) "QSE MEASUREMENT & DIAGONALIZATION"
     [("ha", KS "center"); ("va", KS "center");
      ("fontsize", KN (Int 10)); ("color", KS "red")]].

Definition rotation (k : Z) (x_rot : num) (i : Z) : list Call :=
  [add_patch_Rectangle (x_rot, sub (Int (i + 1)) (Float (1 # 4)))
     (Float 1) (Float (1 # 2))
     [("facecolor", KS "lightblue"); ("edgecolor", KS "blue");
      ("alpha", KN (Float (7 # 10)))];
   text (add x_rot (Float (1 # 2))) (Int (i + 1))
     ("$R_Y(\theta_" ++ str k ++ ")$")%string
     [("ha", KS "center"); ("va", KS "center"); ("fontsize", KN (Int 7))]].

Definition cnot (colour : string) (x_pos : num) (i : Z) : list Call :=
  [vlines [x_pos] (add (Int (i + 1)) (Float (1 # 4)))
     (sub (Int (i + 2)) (Float (1 # 4)))
     [("color", KS colour); ("linestyle", KS "-");
      ("linewidth", KN (Float (3 # 2)))];
   plot x_pos (Int (i + 1)) "o"
     [("color", KS colour); ("markersize", KN (Int 4))];
   plot x_pos (Int (i + 2)) "x"
     [("color", KS colour); ("marker", KS "+"); ("markersize", KN (Int 8))]].

Definition start_x (k : Z) : num :=
  nth (Z.to_nat k) layer_start_x (Float 0).

Definition layer (k : Z) : list Call :=
  flat_map (rotation k (start_x k)) (range 0 n 1)
  ++ flat_map (cnot "red" (add (start_x k) (Float (3 # 2))))
       (range 0 (n - 1) 2)
  ++ flat_map (cnot "orange"
                 (add (add (start_x k) (Float (3 # 2))) (Float 1)))
       (range 1 (n - 1) 2).

Definition measurement (i : Z) : list Call :=
  [add_patch_Rectangle (Float (35 # 2), sub (Int (i + 1)) (Float (1 # 4)))
     (Float (3 # 2)) (Float (1 # 2))
     [("facecolor", KS "lightcoral"); ("edgecolor", KS "red");
      ("hatch", KS "//"); ("alpha", KN (Float (9 # 10)))];
   text (add (Float (35 # 2)) (Float (3 # 4))) (Int (i + 1)) "Obs ($\hat{O}$)"
     [("ha", KS "center"); ("va", KS "center");
      ("fontsize", KN (Int 7)); ("color", KS "black")]].

Definition summary : list Call :=
  [text (Float (73 # 4)) (Float (3 # 2)) "QSE $\rightarrow H_{\text{eff}}$"
     [("ha", KS "center"); ("va", KS "center");
      ("fontsize", KN (Int 10)); ("color", KS "red");
      ("weight", KS "bold")]].

Definition drawing : list Call :=
  header
  ++ flat_map qubit_line (range 0 n 1)
  ++ captions
  ++ flat_map layer [0; 1; 2]
  ++ flat_map measurement (range 0 n 1)
  ++ summary.

End Drawing.

(** ** Reading a figure

    The qubit with index [i] lives on the horizontal line [y = i + 1]; the
    readers below recover the diagram's elements from the recorded calls. *)

Definition kw_str (key : string) (kw : kwargs) : option string :=
  match find (fun p => String.eqb (fst p) key) kw with
  | Some (_, KS s) => Some s
  | _ => None
  end.

Definition has_kw (key val : string) (kw : kwargs) : bool :=
  match kw_str key kw with
  | Some s => String.eqb s val
  | None => false
  end.

Definition num_eqb (a b : num) : bool := Qeq_bool (to_Q a) (to_Q b).

(** [scan look cs] walks the calls in order; [look c rest] says what element,
    if any, starts at the call [c] followed by the calls [rest]. *)
Fixpoint scan {B : Type} (look : Call -> list Call -> option B)
    (cs : list Call) : list B :=
  match cs with
  | [] => []
  | c :: rest =>
      match look c rest with
      | Some b => b :: scan look rest
      | None => scan look rest
      end
  end.

(** A horizontal qubit line, by its height. *)
Definition qubit_line_at (c : Call) (rest : list Call) : option num :=
  match c with
  | hlines y _ _ _ => Some y
  | _ => None
  end.

(** An index label: a text right-aligned at the left margin [x = 0]; read as
    its height and its string. *)
Definition index_label_at (c : Call) (rest : list Call)
  : option (num * string) :=
  match c with
  | text x y s kw =>
      if has_kw "ha" "right" kw && num_eqb x (Int 0) then Some (y, s) else None
  | _ => None
  end.

(** A rotation-gate box: a light-blue rectangle; read as its corner. *)
Definition rotation_box_at (c : Call) (rest : list Call)
  : option (num * num) :=
  match c with
  | add_patch_Rectangle xy _ _ kw =>
      if has_kw "facecolor" "lightblue" kw then Some xy else None
  | _ => None
  end.

(** A labelled rotation gate: the box and the text drawn right after it; read
    as the box's x position, the qubit index of the text's line, the string. *)
Definition rotation_gate_at (c : Call) (rest : list Call)
  : option (num * Z * string) :=
  match c with
  | add_patch_Rectangle (x, _) _ _ kw =>
      if has_kw "facecolor" "lightblue" kw then
        match rest with
        | text _ (Int y) s _ :: _ => Some (x, y - 1, s)
        | _ => None
        end
      else None
  | _ => None
  end.

(** A terminal measurement box: a hatched light-coral rectangle. *)
Definition measurement_box_at (c : Call) (rest : list Call)
  : option (num * num) :=
  match c with
  | add_patch_Rectangle xy _ _ kw =>
      if has_kw "facecolor" "lightcoral" kw && has_kw "hatch" "//" kw
      then Some xy else None
  | _ => None
  end.

(** An entanglement connector: a vertical line followed by its control dot
    and its target cross, both on the line's x position. *)
Record Connector : Type := mkConnector {
  at_x : num;
  colour : option string;
  control : Z;
  target : Z
}.

Definition connector_at (c : Call) (rest : list Call) : option Connector :=
  match c with
  | vlines [x] _ _ kw =>
      match rest with
      | plot xc (Int yc) fc _ :: plot xt (Int yt) ft _ :: _ =>
          if String.eqb fc "o" && String.eqb ft "x"
             && num_eqb xc x && num_eqb xt x
          then Some (mkConnector x (kw_str "color" kw) (yc - 1) (yt - 1))
          else None
      | _ => None
      end
  | _ => None
  end.

Definition qubit_lines : list Call -> list num := scan qubit_line_at.
Definition index_labels : list Call -> list (num * string) :=
  scan index_label_at.
Definition rotation_boxes : list Call -> list (num * num) :=
  scan rotation_box_at.
Definition rotation_gates : list Call -> list (num * Z * string) :=
  scan rotation_gate_at.
Definition measurement_boxes : list Call -> list (num * num) :=
  scan measurement_box_at.
Definition connectors : list Call -> list Connector := scan connector_at.

(** The connectors of one entanglement pass, told by the colour they are
    drawn in: pass 1 is red, pass 2 is orange. *)
Definition pass_connectors (col : string) (cs : list Call) : list Connector :=
  filter (fun c =>
            match colour c with
            | Some s => String.eqb s col
            | None => false
            end)
         (connectors cs).

(** The connectors of one pass at the x position [x], that is in one layer,
    as (control, target) pairs. *)
Definition pass_pairs (col : string) (x : num) (cs : list Call)
  : list (Z * Z) :=
  map (fun c => (control c, target c))
      (filter (fun c => num_eqb (at_x c) x) (pass_connectors col cs)).

(** The adjacent pairs [(first, first+1), (first+2, first+3), ...] that stay
    within the indices [0 .. n-1]. *)
Definition pairs_from (first n : Z) : list (Z * Z) :=
  map (fun j => (first + 2 * Z.of_nat j, first + 2 * Z.of_nat j + 1))
      (seq 0 (Z.to_nat ((n - first) / 2))).

(** The figure a call of [draw] returns, as the calls recorded on it (nothing
    when the call raises). *)
Definition rendered (self : MockUCCSDAnsatz) (args : list value)
    (kwds : list (string * value)) (st : Pyplot) : list Call :=
  match draw self args kwds st with
  | (inr fig, st') => canvas fig st'
  | (inl _, _) => []
  end.

(** ** Specifications used in the proofs *)

Definition fresh (h : positive) (st : Pyplot) : Prop :=
  Forall (fun g => number g <> h) st.

(** [emits m h a cs]: run on a registry whose newest figure is numbered [h],
    [m] returns [a] and appends exactly [cs] to that figure. *)
Definition emits {A : Type} (m : M A) (h : positive) (a : A) (cs : list Call)
  : Prop :=
  forall st f, number f = h -> fresh h st ->
    m (st ++ [f]) = (inr a, st ++ [extend f cs]).

(** A block of calls is closed for a reader when no element read from it
    depends on the calls that follow. *)
Definition closed {B : Type} (look : Call -> list Call -> option B)
    (bs : list Call) : Prop :=
  forall rest, scan look (bs ++ rest) = scan look bs ++ scan look rest.

(** ** The rest of the class and further readers *)

(** [draw_cnot_ladder]: a ladder of connectors on the axes [ax], one between
    each pair of neighbouring lines of [num_q] lines shifted by [offset]. *)
Definition draw_cnot_ladder (self : MockUCCSDAnsatz) (ax : positive)
    (start_x : num) (num_q : Z) (offset : num) (color : string) : M unit :=
  for_ (range 0 (num_q - 1) 1) (fun i =>
    let y_control := add (Int (i + 1)) offset in
    let y_target := add (Int (i + 2)) offset in
    let x_pos := start_x in
    call ax (vlines [x_pos] (add y_control (Float (1 # 4)))
               (sub y_target (Float (1 # 4)))
               [("color", KS color); ("linestyle", KS "-");
                ("linewidth", KN (Int 1))]) ;;
    call ax (plot x_pos y_control "o"
               [("color", KS color); ("markersize", KN (Int 4))]) ;;
    call ax (plot x_pos y_target "x"
               [("color", KS color); ("marker", KS "+");
                ("markersize", KN (Int 8))])).

(** [excitation_ops]: the mock has no excitation operator. *)
Definition excitation_ops (self : MockUCCSDAnsatz) : list value := [].

(** A labelled measurement block: the hatched box and the text drawn right
    after it; read as the box's x position, the qubit index of the text's
    line, the string. *)
Definition measurement_gate_at (c : Call) (rest : list Call)
  : option (num * Z * string) :=
  match c with
  | add_patch_Rectangle (x, _) _ _ kw =>
      if has_kw "facecolor" "lightcoral" kw && has_kw "hatch" "//" kw then
        match rest with
        | text _ (Int y) s _ :: _ => Some (x, y - 1, s)
        | _ => None
        end
      else None
  | _ => None
  end.

Definition measurement_gates : list Call -> list (num * Z * string) :=
  scan measurement_gate_at.

(** The qubits a list of connector pairs touches, in order. *)
Definition touched (pairs : list (Z * Z)) : list Z :=
  flat_map (fun p => [fst p; snd p]) pairs.

(** The points a call places on the canvas: the ends of a line, the corners
    of a box, the position of a text or of a marker. *)
Definition anchors (c : Call) : list (num * num) :=
  match c with
  | hlines y xmin xmax _ => [(xmin, y); (xmax, y)]
  | vlines xs ymin ymax _ => flat_map (fun x => [(x, ymin); (x, ymax)]) xs
  | text x y _ _ => [(x, y)]
  | add_patch_Rectangle (x, y) width height _ =>
      [(x, y); (add x width, add y height)]
  | plot x y _ _ => [(x, y)]
  | _ => []
  end.

(** The axis limits a figure was given. *)
Definition xlim_at (c : Call) (rest : list Call) : option (num * num) :=
  match c with
  | set_xlim lo hi => Some (lo, hi)
  | _ => None
  end.

Definition ylim_at (c : Call) (rest : list Call) : option (num * num) :=
  match c with
  | set_ylim lo hi => Some (lo, hi)
  | _ => None
  end.

Definition xlims : list Call -> list (num * num) := scan xlim_at.
Definition ylims : list Call -> list (num * num) := scan ylim_at.

Definition between (lo hi v : num) : Prop :=
  (to_Q lo <= to_Q v)%Q /\ (to_Q v <= to_Q hi)%Q.

(** A point within the limits [(left, right)] and [(bottom, top)]. *)
Definition within (xl yl : num * num) (p : num * num) : Prop :=
  between (fst xl) (snd xl) (fst p) /\ between (fst yl) (snd yl) (snd p).

(** A connector with the extent of its line: the line's two ends and the
    heights of the control dot and of the target cross that follow it. *)
Definition connector_span_at (c : Call) (rest : list Call)
  : option (num * num * Z * Z) :=
  match c with
  | vlines [x] ymin ymax _ =>
      match rest with
      | plot xc (Int yc) fc _ :: plot xt (Int yt) ft _ :: _ =>
          if String.eqb fc "o" && String.eqb ft "x"
             && num_eqb xc x && num_eqb xt x
          then Some (ymin, ymax, yc, yt)
          else None
      | _ => None
      end
  | _ => None
  end.

Definition connector_spans : list Call -> list (num * num * Z * Z) :=
  scan connector_span_at.

(** [MockSparsePauliOp.__repr__] *)
Definition repr (self : MockSparsePauliOp) : string :=
  ("SparsePauliOp (n=" ++ str (op_num_qubits self) ++ ", terms=150+)")%string.

(** Any box: its corner, width and height. *)
Definition box_at (c : Call) (rest : list Call)
  : option (num * num * num * num) :=
  match c with
  | add_patch_Rectangle (x, y) width height _ => Some (x, y, width, height)
  | _ => None
  end.

Definition boxes : list Call -> list (num * num * num * num) := scan box_at.

(** The integers matplotlib takes as an axis limit without complaint. *)
Definition int64 (z : Z) : Prop := - 2 ^ 63 <= z < 2 ^ 63.

(** The three calls of one rung of [draw_cnot_ladder]. *)
Definition rung (x : num) (offset : num) (color : string) (i : Z)
  : list Call :=
  [vlines [x] (add (add (Int (i + 1)) offset) (Float (1 # 4)))
     (sub (add (Int (i + 2)) offset) (Float (1 # 4)))
     [("color", KS color); ("linestyle", KS "-"); ("linewidth", KN (Int 1))];
   plot x (add (Int (i + 1)) offset) "o"
     [("color", KS color); ("markersize", KN (Int 4))];
   plot x (add (Int (i + 2)) offset) "x"
     [("color", KS color); ("marker", KS "+"); ("markersize", KN (Int 8))]].

(** [appends m ax a cs]: on every registry, [m] returns [a], appends exactly
    [cs] to the figures numbered [ax] and leaves the others as they are. *)
Definition appends {A : Type} (m : M A) (ax : positive) (a : A)
    (cs : list Call) : Prop :=
  forall st,
    m st = (inr a,
            map (fun f => if Pos.eqb (number f) ax then extend f cs else f)
                st).

(** * Proofs *)

(** ** Facts about [range] and indexing *)

Lemma range_from_zero (n : Z) :
  range 0 n 1 = map Z.of_nat (seq 0 (Z.to_nat n)).
Proof.
  unfold range, range_len.
  replace ((n - 0 + 1 - 1) / 1) with n by (rewrite Z.div_1_r; lia).
  apply map_ext; intro j; lia.
Qed.

Lemma range_even (n : Z) :
  range 0 (n - 1) 2 = map (fun j => 2 * Z.of_nat j) (seq 0 (Z.to_nat (n / 2))).
Proof.
  unfold range, range_len.
  replace (n - 1 - 0 + 2 - 1) with n by lia.
  apply map_ext; intro j; lia.
Qed.

Lemma range_odd (n : Z) :
  range 1 (n - 1) 2
  = map (fun j => 2 * Z.of_nat j + 1) (seq 0 (Z.to_nat ((n - 1) / 2))).
Proof.
  unfold range, range_len.
  replace (n - 1 - 1 + 2 - 1) with (n - 1) by lia.
  apply map_ext; intro j; lia.
Qed.

Lemma getitem_map_range {A : Type} (f : Z -> A) (n i : Z) :
  In i (range 0 n 1) -> getitem (map f (range 0 n 1)) i = inr (f i).
Proof.
  rewrite range_from_zero. intro Hi.
  apply in_map_iff in Hi. destruct Hi as [j [Hj Hin]].
  apply in_seq in Hin. subst i.
  unfold getitem. rewrite !length_map, length_seq.
  destruct (Z.ltb_spec (Z.of_nat j) 0) as [Hneg | _]; [lia |].
  destruct (Z.leb_spec 0 (Z.of_nat j)) as [_ | Hneg]; [| lia].
  destruct (Z.ltb_spec (Z.of_nat j) (Z.of_nat (Z.to_nat n))) as [_ | Hge];
    [| lia].
  cbn [andb]. rewrite Nat2Z.id, map_map.
  rewrite (nth_error_map (fun x => f (Z.of_nat x))).
  rewrite nth_error_seq.
  destruct (Nat.ltb_spec j (Z.to_nat n)) as [_ | Hge]; [| lia].
  reflexivity.
Qed.

(** ** Computations that draw on a fresh figure *)

Lemma extend_nil (f : Figure) : extend f [] = f.
Proof. destruct f; unfold extend; cbn. rewrite app_nil_r. reflexivity. Qed.

Lemma extend_extend (f : Figure) (cs1 cs2 : list Call) :
  extend (extend f cs1) cs2 = extend f (cs1 ++ cs2).
Proof. unfold extend; cbn. rewrite app_assoc. reflexivity. Qed.

Lemma emits_ret {A : Type} (h : positive) (a : A) : emits (ret a) h a [].
Proof. intros st f _ _. unfold ret. rewrite extend_nil. reflexivity. Qed.

Lemma emits_lift {A : Type} (h : positive) (r : Exn + A) (a : A) :
  r = inr a -> emits (lift r) h a [].
Proof. intros ->. apply emits_ret. Qed.

Lemma emits_call (h : positive) (c : Call) : emits (call h c) h tt [c].
Proof.
  intros st f Hf Hst. unfold call. rewrite map_app. cbn [map].
  rewrite Hf, Pos.eqb_refl. f_equal. f_equal.
  rewrite <- (map_id st) at 2. apply map_ext_in. intros g Hg.
  unfold fresh in Hst. rewrite Forall_forall in Hst.
  destruct (Pos.eqb_spec (number g) h) as [E | _]; [| reflexivity].
  exfalso. exact (Hst g Hg E).
Qed.

Lemma emits_bind {A B : Type} (m : M A) (k : A -> M B) (h : positive)
    (a : A) (b : B) (cs1 cs2 : list Call) :
  emits m h a cs1 -> emits (k a) h b cs2 -> emits (bind m k) h b (cs1 ++ cs2).
Proof.
  intros Hm Hk st f Hf Hst. unfold bind. rewrite (Hm st f Hf Hst).
  rewrite (Hk st (extend f cs1) Hf Hst), extend_extend. reflexivity.
Qed.

Lemma emits_for {A : Type} (l : list A) (body : A -> M unit) (h : positive)
    (g : A -> list Call) :
  (forall x, In x l -> emits (body x) h tt (g x)) ->
  emits (for_ l body) h tt (flat_map g l).
Proof.
  induction l as [| x rest IH]; intro Hbody; cbn [for_ flat_map].
  - apply emits_ret.
  - apply emits_bind with (a := tt).
    + apply Hbody. left. reflexivity.
    + apply IH. intros y Hy. apply Hbody. right. exact Hy.
Qed.

Lemma emits_eq {A : Type} (m : M A) (h : positive) (a : A)
    (cs cs' : list Call) :
  emits m h a cs -> cs = cs' -> emits m h a cs'.
Proof. intros H <-. exact H. Qed.

Lemma next_num_fresh (st : Pyplot) : fresh (next_num st) st.
Proof.
  assert (Hmax : forall g, In g st ->
            (number g <= fold_right Pos.max 1 (map number st))%positive).
  { induction st as [| f rest IH]; intros g Hg; [destruct Hg |].
    cbn [map fold_right]. destruct Hg as [<- | Hg].
    - apply Pos.le_max_l.
    - etransitivity; [apply IH; exact Hg | apply Pos.le_max_r]. }
  unfold fresh. rewrite Forall_forall. intros g Hg E.
  specialize (Hmax g Hg). unfold next_num in E.
  destruct st as [| f rest]; [destruct Hg | lia].
Qed.

Lemma lookup_newest (h : positive) (st later : Pyplot) (f : Figure) :
  number f = h -> fresh h st -> lookup h (st ++ f :: later) = Some f.
Proof.
  intros Hf Hst. unfold lookup.
  induction st as [| g rest IH]; cbn [app find].
  - rewrite Hf, Pos.eqb_refl. reflexivity.
  - inversion Hst as [| ? ? Hg Hrest]; subst.
    destruct (Pos.eqb_spec (number g) (number f)) as [E | _];
      [contradiction | apply IH; assumption].
Qed.

(** Symbolic execution of a block of drawing code; the loop over the three
    layers is split into its iterations, where the offsets are looked up. *)
Ltac emits_step n :=
  cbv beta zeta;
  lazymatch goal with
  | |- emits (bind _ _) _ _ _ => eapply emits_bind
  | |- emits (call _ _) _ _ _ => apply emits_call
  | |- emits (ret _) _ _ _ => apply emits_ret
  | |- emits (lift _) _ _ _ =>
      eapply emits_lift;
      first [ apply getitem_map_range; eassumption | reflexivity ]
  | |- emits (for_ (range 0 3 1) _) _ _ _ =>
      let k := fresh "k" in
      let Hk := fresh "Hk" in
      apply emits_for with (g := layer n); intros k Hk;
      assert (k = 0 \/ k = 1 \/ k = 2) as [-> | [-> | ->]]
        by (cbv in Hk; intuition lia);
      (eapply emits_eq; [repeat emits_step n | reflexivity])
  | |- emits (for_ _ _) _ _ _ => eapply emits_for; intros ? ?
  end.

Lemma draw_run (self : MockUCCSDAnsatz) (args : list value)
    (kwds : list (string * value)) (st : Pyplot) :
  draw self args kwds st
  = (inr (next_num st),
     st ++ [mkFigure (next_num st) (Int 12, Int 8)
              (drawing (num_qubits self))]).
Proof.
  unfold draw. unfold bind at 1. unfold subplots. cbn [fst snd].
  match goal with
  | |- ?m (_ ++ [?f]) = _ =>
      assert (E : emits m (next_num st) (next_num st)
                    (drawing (num_qubits self)))
  end.
  { eapply emits_eq; [repeat emits_step (num_qubits self) | reflexivity]. }
  rewrite (E st (mkFigure (next_num st) (Int 12, Int 8) []) eq_refl
             (next_num_fresh st)).
  reflexivity.
Qed.

(** ** What the readers see in [drawing n] *)

Lemma rendered_drawing (self : MockUCCSDAnsatz) (args : list value)
    (kwds : list (string * value)) (st : Pyplot) :
  rendered self args kwds st = drawing (num_qubits self).
Proof.
  unfold rendered, canvas. rewrite draw_run.
  rewrite lookup_newest with (f := mkFigure (next_num st) (Int 12, Int 8)
                                     (drawing (num_qubits self)));
    [reflexivity | reflexivity | apply next_num_fresh].
Qed.

Lemma num_eqb_refl (a : num) : num_eqb a a = true.
Proof. unfold num_eqb. apply Qeq_bool_iff. reflexivity. Qed.

Lemma flat_map_single {A B : Type} (f : A -> B) (l : list A) :
  flat_map (fun x => [f x]) l = map f l.
Proof. induction l as [| x l IH]; cbn; [| rewrite IH]; reflexivity. Qed.

Lemma flat_map_none {A B : Type} (l : list A) :
  flat_map (fun _ => @nil B) l = [].
Proof. induction l as [| x l IH]; cbn; [| rewrite IH]; reflexivity. Qed.

Section Scan.

Context {B : Type} (look : Call -> list Call -> option B).

Lemma closed_nil : closed look [].
Proof. intro rest. reflexivity. Qed.

Lemma closed_app (b1 b2 : list Call) :
  closed look b1 -> closed look b2 -> closed look (b1 ++ b2).
Proof.
  intros H1 H2 rest.
  rewrite <- app_assoc, H1, H2, (H1 b2), app_assoc. reflexivity.
Qed.

Lemma closed_flat_map {A : Type} (g : A -> list Call) (l : list A) :
  (forall x, closed look (g x)) -> closed look (flat_map g l).
Proof.
  intro Hg. induction l as [| x l IH]; cbn [flat_map].
  - apply closed_nil.
  - apply closed_app; [apply Hg | exact IH].
Qed.

Lemma scan_app (b1 b2 : list Call) :
  closed look b1 -> scan look (b1 ++ b2) = scan look b1 ++ scan look b2.
Proof. intro H. apply H. Qed.

Lemma scan_flat_map {A : Type} (g : A -> list Call) (l : list A) :
  (forall x, closed look (g x)) ->
  scan look (flat_map g l) = flat_map (fun x => scan look (g x)) l.
Proof.
  intro Hg. induction l as [| x l IH]; cbn [flat_map]; [reflexivity |].
  rewrite (Hg x), IH. reflexivity.
Qed.

Variable n : Z.

Hypothesis closed_header : closed look (header n).
Hypothesis closed_qubit_line : forall i, closed look (qubit_line i).
Hypothesis closed_captions : closed look (captions n).
Hypothesis closed_rotation : forall k x i, closed look (rotation k x i).
Hypothesis closed_cnot : forall col x i, closed look (cnot col x i).
Hypothesis closed_measurement : forall i, closed look (measurement i).

Lemma closed_layer (k : Z) : closed look (layer n k).
Proof.
  unfold layer.
  repeat first [ apply closed_app | apply closed_flat_map; intro ];
    auto.
Qed.

(** What is read from each kind of block. *)
Variables (in_header in_captions in_summary : list B).
Variables (in_qubit_line in_measurement : Z -> list B).
Variable in_rotation : Z -> num -> Z -> list B.
Variable in_cnot : string -> num -> Z -> list B.

Hypothesis scan_header : scan look (header n) = in_header.
Hypothesis scan_captions : scan look (captions n) = in_captions.
Hypothesis scan_summary : scan look summary = in_summary.
Hypothesis scan_qubit_line :
  forall i, scan look (qubit_line i) = in_qubit_line i.
Hypothesis scan_measurement :
  forall i, scan look (measurement i) = in_measurement i.
Hypothesis scan_rotation :
  forall k x i, scan look (rotation k x i) = in_rotation k x i.
Hypothesis scan_cnot :
  forall col x i, scan look (cnot col x i) = in_cnot col x i.

Lemma scan_layer (k : Z) :
  scan look (layer n k)
  = flat_map (in_rotation k (start_x k)) (range 0 n 1)
    ++ flat_map (in_cnot "red" (add (start_x k) (Float (3 # 2))))
         (range 0 (n - 1) 2)
    ++ flat_map (in_cnot "orange"
                   (add (add (start_x k) (Float (3 # 2))) (Float 1)))
         (range 1 (n - 1) 2).
Proof.
  unfold layer.
  rewrite scan_app by (apply closed_flat_map; auto).
  rewrite scan_app by (apply closed_flat_map; auto).
  rewrite !scan_flat_map by auto.
  rewrite (flat_map_ext _ _ (scan_rotation k (start_x k))).
  rewrite (flat_map_ext _ _ (scan_cnot "red" _)).
  rewrite (flat_map_ext _ _ (scan_cnot "orange" _)).
  reflexivity.
Qed.

Lemma scan_drawing :
  scan look (drawing n)
  = in_header
    ++ flat_map in_qubit_line (range 0 n 1)
    ++ in_captions
    ++ flat_map
         (fun k =>
            flat_map (in_rotation k (start_x k)) (range 0 n 1)
            ++ flat_map (in_cnot "red" (add (start_x k) (Float (3 # 2))))
                 (range 0 (n - 1) 2)
            ++ flat_map (in_cnot "orange"
                           (add (add (start_x k) (Float (3 # 2)))
                                (Float 1)))
                 (range 1 (n - 1) 2))
         [0; 1; 2]
    ++ flat_map in_measurement (range 0 n 1)
    ++ in_summary.
Proof.
  unfold drawing.
  rewrite scan_app by assumption.
  rewrite scan_app by (apply closed_flat_map; auto).
  rewrite scan_app by assumption.
  rewrite scan_app by (apply closed_flat_map; apply closed_layer).
  rewrite scan_app by (apply closed_flat_map; auto).
  rewrite !scan_flat_map by (auto using closed_layer).
  rewrite scan_header, scan_captions, scan_summary.
  rewrite (flat_map_ext _ _ scan_qubit_line).
  rewrite (flat_map_ext _ _ scan_measurement).
  rewrite (flat_map_ext _ _ scan_layer).
  reflexivity.
Qed.

End Scan.

Ltac closed_block :=
  intros; intro; cbn; rewrite ?num_eqb_refl; reflexivity.

Ltac read_block :=
  intros; cbn; rewrite ?num_eqb_refl; cbn;
  repeat first [reflexivity | lia | f_equal].

(** [read_figure h c s q m r e]: read [drawing n], given what the reader
    finds in the header, the captions, the summary, a qubit line, a
    measurement block, a rotation block and a connector block. *)
Ltac read_figure h c s q m r e :=
  rewrite scan_drawing
    with (in_header := h) (in_captions := c) (in_summary := s)
         (in_qubit_line := q) (in_measurement := m)
         (in_rotation := r) (in_cnot := e);
  [ cbn [flat_map];
    rewrite ?flat_map_none, ?flat_map_single; cbn [app]; rewrite ?app_nil_r
  | first [closed_block | read_block] .. ].

Lemma qubit_lines_drawing (n : Z) :
  qubit_lines (drawing n) = map (fun i => Int (i + 1)) (range 0 n 1).
Proof.
  unfold qubit_lines.
  read_figure (@nil num) (@nil num) (@nil num)
    (fun i : Z => [Int (i + 1)]) (fun _ : Z => @nil num)
    (fun (_ : Z) (_ : num) (_ : Z) => @nil num)
    (fun (_ : string) (_ : num) (_ : Z) => @nil num).
  reflexivity.
Qed.

Lemma index_labels_drawing (n : Z) :
  index_labels (drawing n)
  = map (fun i => (Int (i + 1), ("$q_" ++ str i ++ "$")%string))
        (range 0 n 1).
Proof.
  unfold index_labels.
  read_figure (@nil (num * string)) (@nil (num * string))
    (@nil (num * string))
    (fun i : Z => [(Int (i + 1), ("$q_" ++ str i ++ "$")%string)])
    (fun _ : Z => @nil (num * string))
    (fun (_ : Z) (_ : num) (_ : Z) => @nil (num * string))
    (fun (_ : string) (_ : num) (_ : Z) => @nil (num * string)).
  reflexivity.
Qed.

Lemma rotation_boxes_drawing (n : Z) :
  rotation_boxes (drawing n)
  = flat_map (fun x_rot =>
                map (fun i => (x_rot, sub (Int (i + 1)) (Float (1 # 4))))
                    (range 0 n 1))
             [Float 1; Float (9 # 2); Float 9].
Proof.
  unfold rotation_boxes.
  read_figure (@nil (num * num)) (@nil (num * num)) (@nil (num * num))
    (fun _ : Z => @nil (num * num)) (fun _ : Z => @nil (num * num))
    (fun (_ : Z) (x : num) (i : Z) => [(x, sub (Int (i + 1)) (Float (1 # 4)))])
    (fun (_ : string) (_ : num) (_ : Z) => @nil (num * num)).
  reflexivity.
Qed.

Lemma rotation_gates_drawing (n : Z) :
  rotation_gates (drawing n)
  = flat_map (fun kx =>
                map (fun i => (snd kx, i,
                               ("$R_Y(\theta_" ++ str (fst kx) ++ ")$")%string))
                    (range 0 n 1))
             [(0, Float 1); (1, Float (9 # 2)); (2, Float 9)].
Proof.
  unfold rotation_gates.
  read_figure (@nil (num * Z * string)) (@nil (num * Z * string))
    (@nil (num * Z * string))
    (fun _ : Z => @nil (num * Z * string))
    (fun _ : Z => @nil (num * Z * string))
    (fun (k : Z) (x : num) (i : Z) =>
       [(x, i, ("$R_Y(\theta_" ++ str k ++ ")$")%string)])
    (fun (_ : string) (_ : num) (_ : Z) => @nil (num * Z * string)).
  reflexivity.
Qed.

Lemma measurement_boxes_drawing (n : Z) :
  measurement_boxes (drawing n)
  = map (fun i => (Float (35 # 2), sub (Int (i + 1)) (Float (1 # 4))))
        (range 0 n 1).
Proof.
  unfold measurement_boxes.
  read_figure (@nil (num * num)) (@nil (num * num)) (@nil (num * num))
    (fun _ : Z => @nil (num * num))
    (fun i : Z => [(Float (35 # 2), sub (Int (i + 1)) (Float (1 # 4)))])
    (fun (_ : Z) (_ : num) (_ : Z) => @nil (num * num))
    (fun (_ : string) (_ : num) (_ : Z) => @nil (num * num)).
  reflexivity.
Qed.

Lemma connectors_drawing (n : Z) :
  connectors (drawing n)
  = flat_map (fun xs =>
                map (fun i => mkConnector (fst xs) (Some "red") i (i + 1))
                    (range 0 (n - 1) 2)
                ++ map (fun i => mkConnector (snd xs) (Some "orange") i (i + 1))
                     (range 1 (n - 1) 2))
             [(Float (5 # 2), Float (7 # 2)); (Float 6, Float 7);
              (Float (21 # 2), Float (23 # 2))].
Proof.
  unfold connectors.
  read_figure (@nil Connector) (@nil Connector) (@nil Connector)
    (fun _ : Z => @nil Connector) (fun _ : Z => @nil Connector)
    (fun (_ : Z) (_ : num) (_ : Z) => @nil Connector)
    (fun (col : string) (x : num) (i : Z) =>
       [mkConnector x (Some col) i (i + 1)]).
  cbn [flat_map app fst snd]. rewrite ?app_nil_r, <- ?app_assoc.
  reflexivity.
Qed.

(** ** Helper facts for the claims *)

Lemma filter_map_const {A B : Type} (p : B -> bool) (f : A -> B)
    (l : list A) (b : bool) :
  (forall x, p (f x) = b) -> filter p (map f l) = if b then map f l else [].
Proof.
  intro H. induction l as [| x l IH]; cbn [map filter].
  - destruct b; reflexivity.
  - rewrite H, IH. destruct b; reflexivity.
Qed.

Lemma pairs_from_spec (first n c t : Z) :
  In (c, t) (pairs_from first n)
  <-> (exists j : nat, c = first + 2 * Z.of_nat j) /\ t = c + 1 /\ t <= n - 1.
Proof.
  unfold pairs_from. rewrite in_map_iff. split.
  - intros [j [E Hj]]. apply in_seq in Hj.
    apply pair_equal_spec in E. destruct E as [<- <-].
    split; [exists j; reflexivity |]. split; [reflexivity |].
    assert (Z.of_nat j < (n - first) / 2) by lia.
    Z.to_euclidean_division_equations. lia.
  - intros [[j Hc] [Ht Hn]]. exists j. subst. split; [reflexivity |].
    apply in_seq. split; [lia |].
    assert (Z.of_nat j < (n - first) / 2);
      [Z.to_euclidean_division_equations; lia | lia].
Qed.

Lemma pairs_from_NoDup (first n : Z) : NoDup (pairs_from first n).
Proof.
  unfold pairs_from.
  generalize (seq_NoDup (Z.to_nat ((n - first) / 2)) 0).
  generalize (seq 0 (Z.to_nat ((n - first) / 2))) as l.
  induction l as [| j l IH]; intro Hl; cbn [map]; [constructor |].
  inversion Hl as [| ? ? Hj Hrest]; subst. constructor.
  - rewrite in_map_iff. intros [j' [E Hj']].
    apply pair_equal_spec in E. destruct E as [E _].
    assert (j' = j) by lia. subst. contradiction.
  - apply IH. exact Hrest.
Qed.

Lemma draw_returns (self : MockUCCSDAnsatz) (args : list value)
    (kwds : list (string * value)) (st : Pyplot) :
  fst (draw self args kwds st) = inr (next_num st).
Proof. rewrite draw_run. reflexivity. Qed.

Lemma drawing_below_one (n : Z) :
  n < 1 -> drawing n = header n ++ captions n ++ summary.
Proof.
  intro Hn. unfold drawing, layer.
  assert (E0 : range 0 n 1 = []).
  { rewrite range_from_zero. replace (Z.to_nat n) with 0%nat by lia.
    reflexivity. }
  assert (E1 : range 0 (n - 1) 2 = []).
  { rewrite range_even.
    replace (Z.to_nat (n / 2)) with 0%nat
      by (Z.to_euclidean_division_equations; lia).
    reflexivity. }
  assert (E2 : range 1 (n - 1) 2 = []).
  { rewrite range_odd.
    replace (Z.to_nat ((n - 1) / 2)) with 0%nat
      by (Z.to_euclidean_division_equations; lia).
    reflexivity. }
  rewrite E0, E1, E2. reflexivity.
Qed.

Lemma pass_pairs_red (n : Z) (x : num) :
  In x [Float (5 # 2); Float 6; Float (21 # 2)] ->
  pass_pairs "red" x (drawing n) = pairs_from 0 n.
Proof.
  intro Hx. unfold pass_pairs, pass_connectors. rewrite connectors_drawing.
  cbn [flat_map fst snd]. rewrite !filter_app.
  cbn [In] in Hx.
  destruct Hx as [<- | [<- | [<- | []]]];
    repeat first
      [ rewrite (@filter_map_const _ _ _ _ _ true) by (intro; reflexivity)
      | rewrite (@filter_map_const _ _ _ _ _ false) by (intro; reflexivity) ];
    cbn [app filter]; rewrite ?app_nil_r;
    repeat first
      [ rewrite (@filter_map_const _ _ _ _ _ true) by (intro; reflexivity)
      | rewrite (@filter_map_const _ _ _ _ _ false) by (intro; reflexivity) ];
    cbn [app filter]; rewrite ?app_nil_r;
    rewrite map_map, range_even, map_map; unfold pairs_from;
    rewrite Z.sub_0_r; apply map_ext; intro j; cbn [control target];
    f_equal; lia.
Qed.

Lemma pass_pairs_orange (n : Z) (x : num) :
  In x [Float (7 # 2); Float 7; Float (23 # 2)] ->
  pass_pairs "orange" x (drawing n) = pairs_from 1 n.
Proof.
  intro Hx. unfold pass_pairs, pass_connectors. rewrite connectors_drawing.
  cbn [flat_map fst snd]. rewrite !filter_app.
  cbn [In] in Hx.
  destruct Hx as [<- | [<- | [<- | []]]];
    repeat first
      [ rewrite (@filter_map_const _ _ _ _ _ true) by (intro; reflexivity)
      | rewrite (@filter_map_const _ _ _ _ _ false) by (intro; reflexivity) ];
    cbn [app filter]; rewrite ?app_nil_r;
    repeat first
      [ rewrite (@filter_map_const _ _ _ _ _ true) by (intro; reflexivity)
      | rewrite (@filter_map_const _ _ _ _ _ false) by (intro; reflexivity) ];
    cbn [app filter]; rewrite ?app_nil_r;
    rewrite map_map, range_odd, map_map; unfold pairs_from;
    apply map_ext; intro j; cbn [control target];
    f_equal; lia.
Qed.

Lemma connectors_count (n : Z) :
  List.length (connectors (drawing n))
  = (3 * (List.length (pairs_from 0 n) + List.length (pairs_from 1 n)))%nat.
Proof.
  rewrite connectors_drawing. cbn [flat_map fst snd].
  rewrite !length_app, !length_map, range_even, range_odd.
  unfold pairs_from. rewrite !length_map, !length_seq, Z.sub_0_r.
  cbn [List.length]. lia.
Qed.

Lemma connectors_in_bounds (n : Z) :
  Forall (fun c => 0 <= control c /\ target c = control c + 1
                   /\ target c <= n - 1)
         (connectors (drawing n)).
Proof.
  rewrite connectors_drawing. cbn [flat_map fst snd].
  rewrite range_even, range_odd.
  repeat (apply Forall_app; split); try apply Forall_nil;
    apply Forall_forall; intros c Hc;
    apply in_map_iff in Hc; destruct Hc as [i [<- Hi]];
    apply in_map_iff in Hi; destruct Hi as [j [<- Hj]];
    apply in_seq in Hj; cbn [control target];
    (assert (Z.of_nat j < n / 2 \/ Z.of_nat j < (n - 1) / 2) by lia);
    Z.to_euclidean_division_equations; lia.
Qed.

Lemma xlims_drawing (n : Z) : xlims (drawing n) = [(Int 0, Int 20)].
Proof.
  unfold xlims.
  read_figure [(Int 0, Int 20)] (@nil (num * num)) (@nil (num * num))
    (fun _ : Z => @nil (num * num)) (fun _ : Z => @nil (num * num))
    (fun (_ : Z) (_ : num) (_ : Z) => @nil (num * num))
    (fun (_ : string) (_ : num) (_ : Z) => @nil (num * num)).
  reflexivity.
Qed.

Lemma ylims_drawing (n : Z) : ylims (drawing n) = [(Int 0, Int (n + 1))].
Proof.
  unfold ylims.
  read_figure [(Int 0, Int (n + 1))] (@nil (num * num)) (@nil (num * num))
    (fun _ : Z => @nil (num * num)) (fun _ : Z => @nil (num * num))
    (fun (_ : Z) (_ : num) (_ : Z) => @nil (num * num))
    (fun (_ : string) (_ : num) (_ : Z) => @nil (num * num)).
  reflexivity.
Qed.

(** ** The claims *)

(** C1, as stated, fails: with [num_qubits = 0] the renderer raises nothing.
    It returns figure 1, on which it has drawn the title and axis set-up, the
    phase banner, the two captions and the summary label. *)
Lemma draw_zero_qubits_returns :
  draw (init 0 (VTuple [VInt 4; VInt 4])) [] [] []
  = (inr 1%positive,
     [mkFigure 1 (Int 12, Int 8) (header 0 ++ captions 0 ++ summary)]).
Proof. vm_compute. reflexivity. Qed.

(** C1, amended: [draw] has no check of [num_qubits] and no layout error.
    For every ansatz whose axis limit [num_qubits + 1] is a 64-bit integer,
    zero and negative counts included, and every registry of open figures, it
    raises nothing and returns the handle of a figure; the limits it hands to
    matplotlib are 64-bit integers.  When [num_qubits < 1] that figure is
    made of 8 calls (title, axis limits, axis off, phase banner, two captions,
    summary label) and holds no qubit line, index label, rotation box,
    connector or measurement box. *)
Theorem draw_has_no_layout_check (self : MockUCCSDAnsatz)
    (args : list value) (kwds : list (string * value)) (st : Pyplot) :
  int64 (num_qubits self + 1) ->
  (exists fig, fst (draw self args kwds st) = inr fig)
  /\ Forall (fun l => exists lo hi, l = (Int lo, Int hi)
                                    /\ int64 lo /\ int64 hi)
            (xlims (rendered self args kwds st)
             ++ ylims (rendered self args kwds st))
  /\ (num_qubits self < 1 ->
      List.length (rendered self args kwds st) = 8%nat
      /\ qubit_lines (rendered self args kwds st) = []
      /\ index_labels (rendered self args kwds st) = []
      /\ rotation_boxes (rendered self args kwds st) = []
      /\ connectors (rendered self args kwds st) = []
      /\ measurement_boxes (rendered self args kwds st) = []).
Proof.
  intro Hlim. split; [| split].
  - exists (next_num st). apply draw_returns.
  - rewrite rendered_drawing, xlims_drawing, ylims_drawing.
    unfold int64 in *. cbn [app].
    repeat constructor; eexists _, _; (split; [reflexivity |]); lia.
  - intro Hn. rewrite rendered_drawing, drawing_below_one by exact Hn.
    repeat split; reflexivity.
Qed.

Lemma draw_has_no_layout_check_witness :
  List.length (rendered (init (-2) VNone) [VStr "mpl"] [] []) = 8%nat
  /\ qubit_lines (rendered (init (-2) VNone) [VStr "mpl"] [] []) = []
  /\ index_labels (rendered (init (-2) VNone) [VStr "mpl"] [] []) = []
  /\ rotation_boxes (rendered (init (-2) VNone) [VStr "mpl"] [] []) = []
  /\ connectors (rendered (init (-2) VNone) [VStr "mpl"] [] []) = []
  /\ measurement_boxes (rendered (init (-2) VNone) [VStr "mpl"] [] []) = [].
Proof.
  apply (draw_has_no_layout_check (init (-2) VNone) [VStr "mpl"] [] []).
  - unfold int64. cbn. lia.
  - cbn. lia.
Defined.

(** C2, as stated, fails: for [qubitCount = 1] and [repetitionLayers = 0]
    (handed to [draw] both ways it accepts arguments) the claim counts
    [1 * 0 = 0] rotation boxes, and the renderer draws 3. *)
Lemma rotation_boxes_ignore_repetitions :
  List.length
    (rotation_boxes
       (rendered (init 1 (VTuple [VInt 4; VInt 4]))
          [VInt 0] [("repetitionLayers", VInt 0)] []))
  = 3%nat
  /\ Z.to_nat (1 * 0) = 0%nat.
Proof. vm_compute. split; reflexivity. Qed.

(** C2, amended: the number of repetition layers is not an input, it is fixed
    at 3.  For every [num_qubits] the renderer draws [num_qubits * 3]
    rotation boxes (none when [num_qubits < 1]): in each layer [k = 0, 1, 2],
    at that layer's x offset, one box on every qubit [0 .. num_qubits - 1],
    each followed by its label [$R_Y(\theta_k)$]. *)
Theorem rotation_boxes_three_layers (self : MockUCCSDAnsatz)
    (args : list value) (kwds : list (string * value)) (st : Pyplot) :
  List.length (rotation_boxes (rendered self args kwds st))
  = (Z.to_nat (num_qubits self) * 3)%nat
  /\ rotation_gates (rendered self args kwds st)
     = flat_map
         (fun kx =>
            map (fun i => (snd kx, Z.of_nat i,
                           ("$R_Y(\theta_" ++ str (fst kx) ++ ")$")%string))
                (seq 0 (Z.to_nat (num_qubits self))))
         [(0, Float 1); (1, Float (9 # 2)); (2, Float 9)]
  /\ List.length (rotation_gates (rendered self args kwds st))
     = List.length (rotation_boxes (rendered self args kwds st)).
Proof.
  rewrite rendered_drawing, rotation_boxes_drawing, rotation_gates_drawing.
  cbn [flat_map fst snd]. rewrite range_from_zero, !map_map.
  repeat split.
  - rewrite !length_app, !length_map, length_seq. cbn [List.length]. lia.
  - rewrite !length_app, !length_map, !length_seq. reflexivity.
Qed.

(** C3: for the canonical ansatz (8 qubits; the layers are the fixed 3) the
    renderer draws 8 qubit lines, 24 rotation boxes, in each of the 3 layers
    the pass-1 connectors (0,1),(2,3),(4,5),(6,7), 12 in all, and the pass-2
    connectors (1,2),(3,4),(5,6), 9 in all, and 8 measurement boxes. *)
Theorem canonical_figure (num_particles : value) (args : list value)
    (kwds : list (string * value)) (st : Pyplot) :
  List.length (qubit_lines (rendered (init 8 num_particles) args kwds st))
  = 8%nat
  /\ List.length
       (rotation_boxes (rendered (init 8 num_particles) args kwds st))
     = 24%nat
  /\ Forall (fun x =>
               pass_pairs "red" x
                 (rendered (init 8 num_particles) args kwds st)
               = [(0, 1); (2, 3); (4, 5); (6, 7)])
            [Float (5 # 2); Float 6; Float (21 # 2)]
  /\ List.length
       (pass_connectors "red"
          (rendered (init 8 num_particles) args kwds st))
     = 12%nat
  /\ Forall (fun x =>
               pass_pairs "orange" x
                 (rendered (init 8 num_particles) args kwds st)
               = [(1, 2); (3, 4); (5, 6)])
            [Float (7 # 2); Float 7; Float (23 # 2)]
  /\ List.length
       (pass_connectors "orange"
          (rendered (init 8 num_particles) args kwds st))
     = 9%nat
  /\ List.length (connectors (rendered (init 8 num_particles) args kwds st))
     = 21%nat
  /\ List.length
       (measurement_boxes (rendered (init 8 num_particles) args kwds st))
     = 8%nat.
Proof.
  rewrite rendered_drawing. cbn [num_qubits init].
  vm_compute. repeat split; repeat constructor.
Qed.

(** C4: for every [num_qubits], in each of the three layers pass 1 (red, at
    the layer's first connector column) draws one connector for exactly the
    pairs (0,1),(2,3),... and pass 2 (orange, one column further) one for
    exactly the pairs (1,2),(3,4),...; there is no other connector, and every
    connector joins a qubit [c >= 0] to [c + 1 <= num_qubits - 1].
    [pairs_from first n] lists each pair [(c, c+1)], [c = first + 2j], with
    [c + 1 <= n - 1], once. *)
Theorem entanglement_passes (self : MockUCCSDAnsatz) (args : list value)
    (kwds : list (string * value)) (st : Pyplot) :
  Forall (fun x =>
            pass_pairs "red" x (rendered self args kwds st)
            = pairs_from 0 (num_qubits self))
         [Float (5 # 2); Float 6; Float (21 # 2)]
  /\ Forall (fun x =>
               pass_pairs "orange" x (rendered self args kwds st)
               = pairs_from 1 (num_qubits self))
            [Float (7 # 2); Float 7; Float (23 # 2)]
  /\ List.length (connectors (rendered self args kwds st))
     = (3 * (List.length (pairs_from 0 (num_qubits self))
             + List.length (pairs_from 1 (num_qubits self))))%nat
  /\ Forall (fun c => 0 <= control c /\ target c = control c + 1
                      /\ target c <= num_qubits self - 1)
            (connectors (rendered self args kwds st))
  /\ (forall first c t,
        In (c, t) (pairs_from first (num_qubits self))
        <-> (exists j : nat, c = first + 2 * Z.of_nat j)
            /\ t = c + 1 /\ t <= num_qubits self - 1)
  /\ (forall first, NoDup (pairs_from first (num_qubits self))).
Proof.
  rewrite rendered_drawing.
  split; [| split; [| split; [| split; [| split]]]].
  - apply Forall_forall. intros x Hx. apply pass_pairs_red. exact Hx.
  - apply Forall_forall. intros x Hx. apply pass_pairs_orange. exact Hx.
  - apply connectors_count.
  - apply connectors_in_bounds.
  - intros first c t. apply pairs_from_spec.
  - intro first. apply pairs_from_NoDup.
Qed.

(** C5: for every [num_qubits >= 1] the renderer draws exactly [num_qubits]
    horizontal qubit lines, at the heights [1 .. num_qubits], and exactly
    [num_qubits] index labels at the left margin, [$q_i$] at the height of
    line [i]. *)
Theorem qubit_lines_and_labels (self : MockUCCSDAnsatz) (args : list value)
    (kwds : list (string * value)) (st : Pyplot) :
  1 <= num_qubits self ->
  Z.of_nat (List.length (qubit_lines (rendered self args kwds st)))
  = num_qubits self
  /\ Z.of_nat (List.length (index_labels (rendered self args kwds st)))
     = num_qubits self
  /\ qubit_lines (rendered self args kwds st)
     = map (fun i => Int (Z.of_nat i + 1))
           (seq 0 (Z.to_nat (num_qubits self)))
  /\ index_labels (rendered self args kwds st)
     = map (fun i => (Int (Z.of_nat i + 1),
                      ("$q_" ++ str (Z.of_nat i) ++ "$")%string))
           (seq 0 (Z.to_nat (num_qubits self))).
Proof.
  intro Hn.
  rewrite rendered_drawing, qubit_lines_drawing, index_labels_drawing.
  rewrite range_from_zero, !map_map, !length_map, length_seq.
  repeat split; lia.
Qed.

Lemma qubit_lines_and_labels_witness :
  1 <= 8
  /\ Z.of_nat
       (List.length
          (qubit_lines (rendered (init 8 (VTuple [VInt 4; VInt 4])) [] [] [])))
     = 8.
Proof.
  split; [lia |].
  apply (qubit_lines_and_labels (init 8 (VTuple [VInt 4; VInt 4])) [] [] []).
  cbn. lia.
Defined.

(** C6: with [num_qubits = 1] the renderer returns a figure, whatever the
    arguments (so whatever repetition count a caller has in mind), and draws
    no entanglement connector on it. *)
Theorem single_qubit_no_connector (num_parameters : Z) (num_particles : value)
    (args : list value) (kwds : list (string * value)) (st : Pyplot) :
  (exists fig,
     fst (draw (mkAnsatz num_parameters 1 num_particles) args kwds st)
     = inr fig)
  /\ connectors
       (rendered (mkAnsatz num_parameters 1 num_particles) args kwds st)
     = [].
Proof.
  split.
  - exists (next_num st). apply draw_returns.
  - rewrite rendered_drawing, connectors_drawing. reflexivity.
Qed.

(** C7: rendering is deterministic and repeatable.  Whatever figures are
    already open, a call of [draw] on the same ansatz and arguments returns a
    figure with the same sequence of drawing calls; called twice in a row it
    returns two distinct figures with identical calls, and the second call
    leaves the first figure as it was. *)
Theorem draw_deterministic (self : MockUCCSDAnsatz) (args : list value)
    (kwds : list (string * value)) (st other : Pyplot) :
  rendered self args kwds st = rendered self args kwds other
  /\ exists fig1 st1 fig2 st2,
       draw self args kwds st = (inr fig1, st1)
       /\ draw self args kwds st1 = (inr fig2, st2)
       /\ fig1 <> fig2
       /\ canvas fig2 st2 = canvas fig1 st1
       /\ canvas fig1 st2 = canvas fig1 st1
       /\ option_map figsize (lookup fig2 st2)
          = option_map figsize (lookup fig1 st1).
Proof.
  split; [rewrite !rendered_drawing; reflexivity |].
  set (f1 := mkFigure (next_num st) (Int 12, Int 8)
               (drawing (num_qubits self))).
  set (f2 := mkFigure (next_num (st ++ [f1])) (Int 12, Int 8)
               (drawing (num_qubits self))).
  exists (next_num st), (st ++ [f1]), (next_num (st ++ [f1])),
         ((st ++ [f1]) ++ [f2]).
  assert (L1 : lookup (next_num st) (st ++ [f1]) = Some f1)
    by (apply lookup_newest; [reflexivity | apply next_num_fresh]).
  assert (L2 : lookup (next_num (st ++ [f1])) ((st ++ [f1]) ++ [f2])
               = Some f2)
    by (apply lookup_newest; [reflexivity | apply next_num_fresh]).
  assert (L3 : lookup (next_num st) ((st ++ [f1]) ++ [f2]) = Some f1).
  { rewrite <- app_assoc. cbn [app].
    apply lookup_newest; [reflexivity | apply next_num_fresh]. }
  split; [apply draw_run |]. split; [apply draw_run |].
  split.
  - intro E. pose proof (next_num_fresh (st ++ [f1])) as Hfresh.
    unfold fresh in Hfresh. rewrite Forall_forall in Hfresh.
    apply (Hfresh f1); [apply in_or_app; right; left; reflexivity |].
    exact E.
  - unfold canvas. rewrite L1, L2, L3. repeat split; reflexivity.
Qed.

(** C8: the figure depends on [num_qubits] alone.  Two ansatz objects with
    the same [num_qubits], whatever their other fields, drawn with whatever
    positional and keyword arguments, give the same drawing calls; started
    from the same registry the two calls of [draw] agree altogether. *)
Theorem draw_depends_on_num_qubits_only (n : Z)
    (num_parameters1 num_parameters2 : Z) (num_particles1 num_particles2 : value)
    (args1 args2 : list value) (kwds1 kwds2 : list (string * value))
    (st1 st2 : Pyplot) :
  rendered (mkAnsatz num_parameters1 n num_particles1) args1 kwds1 st1
  = rendered (mkAnsatz num_parameters2 n num_particles2) args2 kwds2 st2
  /\ draw (mkAnsatz num_parameters1 n num_particles1) args1 kwds1 st1
     = draw (mkAnsatz num_parameters2 n num_particles2) args2 kwds2 st1
  /\ draw (init n num_particles1) args1 kwds1 st1
     = draw (init n num_particles2) args2 kwds2 st1.
Proof.
  rewrite !rendered_drawing, !draw_run. repeat split; reflexivity.
Qed.

(** C9: [decompose] returns the ansatz it is called on, so drawing the
    decomposed ansatz is drawing the ansatz, as the script does. *)
Theorem decompose_is_identity (a : MockUCCSDAnsatz) (args : list value)
    (kwds : list (string * value)) (st : Pyplot) :
  decompose a = a
  /\ draw (decompose a) args kwds st = draw a args kwds st
  /\ main_circuit_fig a st
     = draw a [VStr "mpl"] [("idle_wires", VBool false); ("fold", VInt (-1))]
         st.
Proof. repeat split; reflexivity. Qed.

(** C10, as stated, fails on binary64 floats.  With [exact_energy = 1e12] the
    function returns a final corrected energy equal to the exact one (both
    additions together are lost to rounding); with [exact_energy = 1e16] the
    VQE error is zero and the division by it raises, so nothing is
    returned. *)
Lemma final_energy_can_equal_exact :
  run_vqe_qse (MockSparsePauliOp_init 8) 8 (VTuple [VInt 4; VInt 4])
    5.922055%float 1e12%float
  = inr (init 8 (VTuple [VInt 4; VInt 4]),
         1000000000000.045%float, 1000000000000.002%float, 1e12%float)
  /\ match run_vqe_qse (MockSparsePauliOp_init 8) 8
             (VTuple [VInt 4; VInt 4]) 5.922055%float 1e12%float with
     | inr (_, _, _, E_final) => PrimFloat.eqb E_final 1e12
     | inl _ => false
     end = true
  /\ run_vqe_qse (MockSparsePauliOp_init 8) 8 (VTuple [VInt 4; VInt 4])
       5.922055%float 1e16%float
     = inl ZeroDivisionError.
Proof. vm_compute. repeat split; reflexivity. Qed.

(** C10, amended: in binary64 arithmetic [run_vqe_qse] raises
    [ZeroDivisionError] when the VQE error [|(e + 0.045) - e|] is zero, and
    otherwise returns [E_vqe = e + 0.045], [E_qse = e + 0.002] and
    [E_final = (e + 0.002) + (-0.0019)], each sum rounded.  For the script's
    own [exact_energy = -40.176466] it returns, and [E_final] exceeds the
    exact energy by 0.0001 up to rounding, so it differs from it. *)
Theorem run_vqe_qse_energies (qubit_op : MockSparsePauliOp) (n : Z)
    (num_particles : value) (nuclear_repulsion_energy e : float) :
  run_vqe_qse qubit_op n num_particles nuclear_repulsion_energy e
  = (if PrimFloat.is_zero (PrimFloat.abs ((e + 0.045) - e)%float)
     then inl ZeroDivisionError
     else inr (init n num_particles,
               (e + 0.045)%float, (e + 0.002)%float,
               ((e + 0.002) + (-0.0019))%float))
  /\ (let '(op, n0, p0, nre0, e0) := define_molecule_and_hamiltonian in
      exists E_vqe E_qse E_final,
        run_vqe_qse op n0 p0 nre0 e0 = inr (init 8 p0, E_vqe, E_qse, E_final)
        /\ PrimFloat.eqb E_final e0 = false
        /\ PrimFloat.ltb 0.0000999 (E_final - e0)%float = true
        /\ PrimFloat.ltb (E_final - e0)%float 0.0001001 = true).
Proof.
  split.
  - unfold run_vqe_qse, truediv.
    destruct (PrimFloat.is_zero (PrimFloat.abs ((e + 0.045) - e)%float));
      reflexivity.
  - cbv beta iota delta [define_molecule_and_hamiltonian].
    eexists _, _, _. vm_compute. repeat split; reflexivity.
Qed.

(** ** Further properties of the code *)

Lemma appends_ret {A : Type} (ax : positive) (a : A) : appends (ret a) ax a [].
Proof.
  intro st. unfold ret. f_equal. rewrite <- (map_id st) at 1.
  apply map_ext. intro f. rewrite extend_nil.
  destruct (Pos.eqb (number f) ax); reflexivity.
Qed.

Lemma appends_call (ax : positive) (c : Call) : appends (call ax c) ax tt [c].
Proof. intro st. reflexivity. Qed.

Lemma appends_bind {A B : Type} (m : M A) (k : A -> M B) (ax : positive)
    (a : A) (b : B) (cs1 cs2 : list Call) :
  appends m ax a cs1 -> appends (k a) ax b cs2 ->
  appends (bind m k) ax b (cs1 ++ cs2).
Proof.
  intros Hm Hk st. unfold bind. rewrite Hm, Hk, map_map. f_equal.
  apply map_ext. intro f.
  destruct (Pos.eqb (number f) ax) eqn:E; cbn [number extend].
  - rewrite E. apply extend_extend.
  - rewrite E. reflexivity.
Qed.

Lemma appends_for {A : Type} (l : list A) (body : A -> M unit)
    (ax : positive) (g : A -> list Call) :
  (forall x, In x l -> appends (body x) ax tt (g x)) ->
  appends (for_ l body) ax tt (flat_map g l).
Proof.
  induction l as [| x rest IH]; intro Hbody; cbn [for_ flat_map].
  - apply appends_ret.
  - apply appends_bind with (a := tt).
    + apply Hbody. left. reflexivity.
    + apply IH. intros y Hy. apply Hbody. right. exact Hy.
Qed.

Ltac appends_step :=
  cbv beta zeta;
  lazymatch goal with
  | |- appends (bind _ _) _ _ _ => eapply appends_bind
  | |- appends (call _ _) _ _ _ => apply appends_call
  | |- appends (ret _) _ _ _ => apply appends_ret
  | |- appends (for_ _ _) _ _ _ => eapply appends_for; intros ? ?
  end.

Lemma appends_eq {A : Type} (m : M A) (ax : positive) (a : A)
    (cs cs' : list Call) :
  appends m ax a cs -> cs = cs' -> appends m ax a cs'.
Proof. intros H <-. exact H. Qed.

Lemma ladder_run (self : MockUCCSDAnsatz) (ax : positive) (x : num)
    (num_q : Z) (offset : num) (color : string) :
  appends (draw_cnot_ladder self ax x num_q offset color) ax tt
          (flat_map (rung x offset color) (range 0 (num_q - 1) 1)).
Proof.
  unfold draw_cnot_ladder. apply appends_for. intros i _.
  eapply appends_eq; [repeat appends_step | reflexivity].
Qed.

(** X1: whenever [draw_cnot_ladder], given an integer [offset], returns, it
    has appended its calls to the figures numbered [ax] and left the others
    as they were; the calls are three per rung and read as the connectors
    (offset, offset+1), (offset+1, offset+2), ..., one for each of the
    [num_q - 1] pairs of neighbouring lines, each starting on the line where
    the one before ends; none when [num_q <= 1]. *)
Theorem cnot_ladder_chain (self : MockUCCSDAnsatz) (ax : positive)
    (x : num) (num_q offset : Z) (color : string) (st st' : Pyplot) :
  draw_cnot_ladder self ax x num_q (Int offset) color st = (inr tt, st') ->
  exists cs,
    st' = map (fun f => if Pos.eqb (number f) ax then extend f cs else f) st
    /\ connectors cs
       = map (fun j => mkConnector x (Some color) (offset + Z.of_nat j)
                         (offset + Z.of_nat j + 1))
             (seq 0 (Z.to_nat (num_q - 1)))
    /\ List.length cs = (3 * Z.to_nat (num_q - 1))%nat.
Proof.
  intro Hrun. rewrite ladder_run in Hrun. injection Hrun as <-.
  exists (flat_map (rung x (Int offset) color) (range 0 (num_q - 1) 1)).
  split; [reflexivity |]. split.
  - unfold connectors. rewrite scan_flat_map by closed_block.
    rewrite flat_map_ext
      with (g := fun i => [mkConnector x (Some color) (offset + i)
                             (offset + i + 1)])
      by read_block.
    rewrite flat_map_single, range_from_zero, map_map. reflexivity.
  - rewrite flat_map_constant_length with (c := 3%nat)
      by (intros; reflexivity).
    rewrite range_from_zero, length_map, length_seq. lia.
Qed.

Lemma cnot_ladder_chain_witness :
  exists cs,
    [mkFigure 1 (Int 12, Int 8) (rung (Float 1) (Int 0) "red" 0
                                 ++ rung (Float 1) (Int 0) "red" 1);
     mkFigure 2 (Int 12, Int 8) []]
    = map (fun f => if Pos.eqb (number f) 1 then extend f cs else f)
          [mkFigure 1 (Int 12, Int 8) []; mkFigure 2 (Int 12, Int 8) []]
    /\ connectors cs
       = map (fun j => mkConnector (Float 1) (Some "red") (0 + Z.of_nat j)
                         (0 + Z.of_nat j + 1))
             (seq 0 (Z.to_nat (3 - 1)))
    /\ List.length cs = (3 * Z.to_nat (3 - 1))%nat.
Proof.
  apply (@cnot_ladder_chain (init 3 VNone) 1%positive (Float 1) 3 0 "red"
           [mkFigure 1 (Int 12, Int 8) []; mkFigure 2 (Int 12, Int 8) []]).
  vm_compute. reflexivity.
Defined.

Lemma NoDup_map_injective {A B : Type} (f : A -> B) (l : list A) :
  (forall x y, f x = f y -> x = y) -> NoDup l -> NoDup (map f l).
Proof.
  intros Hf Hl. induction Hl as [| x l Hx Hl IH]; cbn [map]; constructor.
  - rewrite in_map_iff. intros [y [E Hy]]. apply Hf in E. subst. contradiction.
  - exact IH.
Qed.

Lemma touched_seq (first : Z) (k s : nat) :
  touched (map (fun j => (first + 2 * Z.of_nat j, first + 2 * Z.of_nat j + 1))
               (seq s k))
  = map (fun m => first + Z.of_nat m) (seq (2 * s) (2 * k)).
Proof.
  revert s. induction k as [| k IH]; intro s; [reflexivity |].
  replace (2 * S k)%nat with (S (S (2 * k))) by lia.
  cbn [seq map touched flat_map fst snd app].
  fold (touched (map (fun j => (first + 2 * Z.of_nat j,
                                first + 2 * Z.of_nat j + 1))
                     (seq (S s) k))).
  rewrite IH. replace (2 * S s)%nat with (S (S (2 * s))) by lia.
  f_equal; [lia |]. f_equal. lia.
Qed.

Lemma touched_pairs_from_NoDup (first n : Z) :
  NoDup (touched (pairs_from first n)).
Proof.
  unfold pairs_from. rewrite touched_seq.
  apply NoDup_map_injective; [intros a b E; lia | apply seq_NoDup].
Qed.

Lemma pairs_cover (n c t : Z) :
  In (c, t) (pairs_from 0 n ++ pairs_from 1 n)
  <-> 0 <= c /\ t = c + 1 /\ t <= n - 1.
Proof.
  rewrite in_app_iff, !pairs_from_spec. split.
  - intros [[[j Hj] [Ht Hn]] | [[j Hj] [Ht Hn]]]; lia.
  - intros [Hc [Ht Hn]].
    destruct (Z.even c) eqn:E.
    + left. split; [| lia]. exists (Z.to_nat (c / 2)).
      apply Z.even_spec in E. destruct E as [m ->].
      Z.to_euclidean_division_equations. lia.
    + right. split; [| lia]. exists (Z.to_nat (c / 2)).
      assert (O : Z.odd c = true) by (rewrite <- Z.negb_even, E; reflexivity).
      apply Z.odd_spec in O. destruct O as [m ->].
      Z.to_euclidean_division_equations. lia.
Qed.

Lemma pairs_cover_NoDup (n : Z) : NoDup (pairs_from 0 n ++ pairs_from 1 n).
Proof.
  apply NoDup_app; try apply pairs_from_NoDup.
  intros [c t] H0 H1. apply pairs_from_spec in H0, H1.
  destruct H0 as [[j Hj] _]. destruct H1 as [[j' Hj'] _]. lia.
Qed.

Lemma measurement_gates_drawing (n : Z) :
  measurement_gates (drawing n)
  = map (fun i => (Float (35 # 2), i, "Obs ($\hat{O}$)")) (range 0 n 1).
Proof.
  unfold measurement_gates.
  read_figure (@nil (num * Z * string)) (@nil (num * Z * string))
    (@nil (num * Z * string))
    (fun _ : Z => @nil (num * Z * string))
    (fun i : Z => [(Float (35 # 2), i, "Obs ($\hat{O}$)")])
    (fun (_ : Z) (_ : num) (_ : Z) => @nil (num * Z * string))
    (fun (_ : string) (_ : num) (_ : Z) => @nil (num * Z * string)).
  reflexivity.
Qed.

Lemma drawing_length (n : Z) :
  List.length (drawing n)
  = if n <? 1 then 8%nat else Z.to_nat (19 * n - 1).
Proof.
  unfold drawing, layer. cbn [flat_map]. rewrite !length_app.
  repeat first
    [ rewrite (@flat_map_constant_length _ _ 2%nat qubit_line)
        by (intros; reflexivity)
    | rewrite (@flat_map_constant_length _ _ 2%nat (rotation _ _))
        by (intros; reflexivity)
    | rewrite (@flat_map_constant_length _ _ 3%nat (cnot _ _))
        by (intros; reflexivity)
    | rewrite (@flat_map_constant_length _ _ 2%nat measurement)
        by (intros; reflexivity) ].
  rewrite range_from_zero, range_even, range_odd, !length_map, !length_seq.
  cbn [List.length header captions summary].
  destruct (Z.ltb_spec n 1); Z.to_euclidean_division_equations; lia.
Qed.

(** X2: [draw] leaves every open figure as it was and registers exactly one
    new figure, of size 12 x 8, under a number that no open figure has; the
    handle it returns is that number. *)
Theorem draw_adds_one_figure (self : MockUCCSDAnsatz) (args : list value)
    (kwds : list (string * value)) (st : Pyplot) :
  exists fig new,
    draw self args kwds st = (inr fig, st ++ [new])
    /\ number new = fig
    /\ figsize new = (Int 12, Int 8)
    /\ calls new = rendered self args kwds st
    /\ Forall (fun f => number f <> fig) st.
Proof.
  exists (next_num st),
         (mkFigure (next_num st) (Int 12, Int 8) (drawing (num_qubits self))).
  rewrite rendered_drawing.
  repeat split; [apply draw_run | apply next_num_fresh].
Qed.

(** X3: the number of drawing calls is linear in the qubit count: a figure
    for [num_qubits >= 1] is made of exactly [19 * num_qubits - 1] calls, and
    of the 8 fixed ones when [num_qubits < 1]. *)
Theorem draw_call_count (self : MockUCCSDAnsatz) (args : list value)
    (kwds : list (string * value)) (st : Pyplot) :
  List.length (rendered self args kwds st)
  = if num_qubits self <? 1 then 8%nat
    else Z.to_nat (19 * num_qubits self - 1).
Proof. rewrite rendered_drawing. apply drawing_length. Qed.

(** X4: in each of the three layers the two passes together join every pair
    of neighbouring qubits [(c, c+1)], [0 <= c], [c + 1 <= num_qubits - 1],
    and nothing else, each pair once. *)
Theorem layer_joins_every_neighbour_pair (self : MockUCCSDAnsatz)
    (args : list value) (kwds : list (string * value)) (st : Pyplot) :
  Forall (fun xs =>
            (forall c t,
               In (c, t)
                  (pass_pairs "red" (fst xs) (rendered self args kwds st)
                   ++ pass_pairs "orange" (snd xs)
                        (rendered self args kwds st))
               <-> 0 <= c /\ t = c + 1 /\ t <= num_qubits self - 1)
            /\ NoDup
                 (pass_pairs "red" (fst xs) (rendered self args kwds st)
                  ++ pass_pairs "orange" (snd xs)
                       (rendered self args kwds st)))
         [(Float (5 # 2), Float (7 # 2)); (Float 6, Float 7);
          (Float (21 # 2), Float (23 # 2))].
Proof.
  rewrite rendered_drawing.
  apply Forall_forall. intros xs Hxs. cbn [In] in Hxs.
  destruct Hxs as [<- | [<- | [<- | []]]]; cbn [fst snd];
    rewrite pass_pairs_red, pass_pairs_orange by (cbn; tauto);
    (split; [intros c t; apply pairs_cover | apply pairs_cover_NoDup]).
Qed.

(** X5: within one pass of one layer no qubit is touched twice: the controls
    and targets of the pass's connectors are pairwise distinct, so its
    connectors never share a line. *)
Theorem pass_connectors_are_disjoint (self : MockUCCSDAnsatz)
    (args : list value) (kwds : list (string * value)) (st : Pyplot) :
  Forall (fun x =>
            NoDup (touched (pass_pairs "red" x (rendered self args kwds st))))
         [Float (5 # 2); Float 6; Float (21 # 2)]
  /\ Forall (fun x =>
               NoDup (touched
                        (pass_pairs "orange" x (rendered self args kwds st))))
            [Float (7 # 2); Float 7; Float (23 # 2)].
Proof.
  rewrite rendered_drawing.
  split; apply Forall_forall; intros x Hx;
    first [ rewrite pass_pairs_red by exact Hx
          | rewrite pass_pairs_orange by exact Hx ];
    apply touched_pairs_from_NoDup.
Qed.

(** X6: for every [num_qubits] the renderer ends each qubit line
    [0 .. num_qubits - 1] with one measurement block: a hatched box at
    x = 17.5 followed by its label [Obs ($\hat{O}$)] on that line, and there
    are as many boxes as labelled blocks. *)
Theorem measurement_block_per_qubit (self : MockUCCSDAnsatz)
    (args : list value) (kwds : list (string * value)) (st : Pyplot) :
  measurement_gates (rendered self args kwds st)
  = map (fun i => (Float (35 # 2), Z.of_nat i, "Obs ($\hat{O}$)"))
        (seq 0 (Z.to_nat (num_qubits self)))
  /\ List.length (measurement_boxes (rendered self args kwds st))
     = Z.to_nat (num_qubits self).
Proof.
  rewrite rendered_drawing, measurement_gates_drawing,
    measurement_boxes_drawing, range_from_zero, !map_map.
  split; [reflexivity | rewrite length_map, length_seq; reflexivity].
Qed.

Lemma in_range_from_zero (n i : Z) : In i (range 0 n 1) -> 0 <= i <= n - 1.
Proof.
  rewrite range_from_zero, in_map_iff. intros [j [<- Hj]].
  apply in_seq in Hj. lia.
Qed.

Lemma in_range_even (n i : Z) :
  In i (range 0 (n - 1) 2) -> 0 <= i /\ i + 1 <= n - 1.
Proof.
  rewrite range_even, in_map_iff. intros [j [<- Hj]]. apply in_seq in Hj.
  assert (Z.of_nat j < n / 2) by lia.
  Z.to_euclidean_division_equations. lia.
Qed.

Lemma in_range_odd (n i : Z) :
  In i (range 1 (n - 1) 2) -> 0 <= i /\ i + 1 <= n - 1.
Proof.
  rewrite range_odd, in_map_iff. intros [j [<- Hj]]. apply in_seq in Hj.
  assert (Z.of_nat j < (n - 1) / 2) by lia.
  Z.to_euclidean_division_equations. lia.
Qed.

(** An inequality between coordinates, as one between integers. *)
Ltac inside :=
  unfold within, between; cbn [to_Q fst snd add sub];
  repeat rewrite Qred_correct;
  cbv [Qle Qplus Qminus Qopp inject_Z Qnum Qden Pos.mul]; lia.

Lemma drawing_within_limits (n : Z) :
  1 <= n ->
  Forall (fun c => Forall (within (Int 0, Int 20) (Int 0, Int (n + 1)))
                          (anchors c))
         (drawing n).
Proof.
  intro Hn. unfold drawing. cbn [flat_map]. unfold layer.
  change (start_x 0) with (Float 1).
  change (start_x 1) with (Float (9 # 2)).
  change (start_x 2) with (Float 9).
  unfold header, captions, summary.
  repeat rewrite Forall_app. repeat rewrite Forall_flat_map.
  repeat split;
    try (apply Forall_forall; intros i Hi;
         first [ apply in_range_from_zero in Hi
               | apply in_range_even in Hi
               | apply in_range_odd in Hi ];
         unfold qubit_line, rotation, cnot, measurement);
    repeat constructor; inside.
Qed.

Lemma connector_spans_drawing (n : Z) :
  connector_spans (drawing n)
  = flat_map (fun _ : Z =>
                map (fun i => (add (Int (i + 1)) (Float (1 # 4)),
                               sub (Int (i + 2)) (Float (1 # 4)),
                               i + 1, i + 2))
                    (range 0 (n - 1) 2 ++ range 1 (n - 1) 2))
             [0; 1; 2].
Proof.
  unfold connector_spans.
  read_figure (@nil (num * num * Z * Z)) (@nil (num * num * Z * Z))
    (@nil (num * num * Z * Z))
    (fun _ : Z => @nil (num * num * Z * Z))
    (fun _ : Z => @nil (num * num * Z * Z))
    (fun (_ : Z) (_ : num) (_ : Z) => @nil (num * num * Z * Z))
    (fun (_ : string) (_ : num) (i : Z) =>
       [(add (Int (i + 1)) (Float (1 # 4)),
         sub (Int (i + 2)) (Float (1 # 4)), i + 1, i + 2)]).
  cbn [flat_map]. rewrite !map_app, ?app_nil_r, <- ?app_assoc. reflexivity.
Qed.

(** X7: for [num_qubits >= 1] the figure fits its axes.  The limits are set
    once, to x in [0, 20] and y in [0, num_qubits + 1], and every line end,
    box corner, text position and marker that [draw] places lies within
    them. *)
Theorem figure_fits_axes (self : MockUCCSDAnsatz) (args : list value)
    (kwds : list (string * value)) (st : Pyplot) :
  1 <= num_qubits self ->
  xlims (rendered self args kwds st) = [(Int 0, Int 20)]
  /\ ylims (rendered self args kwds st)
     = [(Int 0, Int (num_qubits self + 1))]
  /\ Forall (fun c =>
               Forall (within (Int 0, Int 20)
                              (Int 0, Int (num_qubits self + 1)))
                      (anchors c))
            (rendered self args kwds st).
Proof.
  intro Hn. rewrite rendered_drawing.
  split; [apply xlims_drawing |].
  split; [apply ylims_drawing | apply drawing_within_limits; exact Hn].
Qed.

Lemma figure_fits_axes_witness :
  1 <= 8
  /\ ylims (rendered (init 8 (VTuple [VInt 4; VInt 4])) [] [] [])
     = [(Int 0, Int (8 + 1))].
Proof.
  split; [lia |].
  apply (figure_fits_axes (init 8 (VTuple [VInt 4; VInt 4])) [] [] []).
  cbn. lia.
Defined.

(** X8: every connector's vertical line is inset from its markers: it runs
    from a quarter above the control dot to a quarter below the target cross
    on the next line, so it is half a unit long and never reaches a marker.
    Every connector has such a line. *)
Theorem connector_lines_are_inset (self : MockUCCSDAnsatz)
    (args : list value) (kwds : list (string * value)) (st : Pyplot) :
  Forall (fun s =>
            match s with
            | (ymin, ymax, yc, yt) =>
                (to_Q ymin == inject_Z yc + (1 # 4))%Q
                /\ (to_Q ymax == inject_Z yt - (1 # 4))%Q
                /\ yt = yc + 1
            end)
         (connector_spans (rendered self args kwds st))
  /\ List.length (connector_spans (rendered self args kwds st))
     = List.length (connectors (rendered self args kwds st)).
Proof.
  rewrite rendered_drawing, connector_spans_drawing, connectors_drawing.
  split.
  - apply Forall_flat_map. apply Forall_forall. intros k _.
    apply Forall_forall. intros s Hs. apply in_map_iff in Hs.
    destruct Hs as [i [<- _]]. cbn [to_Q add sub].
    repeat split; [apply Qred_correct | apply Qred_correct | lia].
  - cbn [flat_map fst snd].
    rewrite !length_app, !length_map, !length_app. cbn [List.length]. lia.
Qed.

Lemma to_int_not_nil (z : Z) :
  Z.to_int z <> Decimal.Pos Decimal.Nil
  /\ Z.to_int z <> Decimal.Neg Decimal.Nil.
Proof.
  destruct z as [| p | p]; cbn; split; try discriminate;
    intro E; injection E; apply DecimalPos.Unsigned.to_uint_nonnil.
Qed.

Lemma str_inj (a b : Z) : str a = str b -> a = b.
Proof.
  unfold str. intro E. apply (f_equal NilZero.int_of_string) in E.
  rewrite !NilZero.isi in E by apply to_int_not_nil.
  injection E as E.
  rewrite <- (DecimalZ.of_to a), <- (DecimalZ.of_to b), E. reflexivity.
Qed.

Lemma append_inj_l (s1 s2 : string) (c : ascii) :
  (s1 ++ String c "")%string = (s2 ++ String c "")%string -> s1 = s2.
Proof.
  revert s2. induction s1 as [| a s1 IH]; intros [| b s2] E; cbn in E.
  - reflexivity.
  - injection E as _ E. destruct s2; discriminate.
  - injection E as _ E. destruct s1; discriminate.
  - injection E as -> E. f_equal. apply IH. exact E.
Qed.

(** X9: every qubit line has its own label: the index labels stand, in
    order, at the heights of the qubit lines, and no two of them carry the
    same string. *)
Theorem index_labels_are_distinct (self : MockUCCSDAnsatz)
    (args : list value) (kwds : list (string * value)) (st : Pyplot) :
  map fst (index_labels (rendered self args kwds st))
  = qubit_lines (rendered self args kwds st)
  /\ NoDup (map snd (index_labels (rendered self args kwds st))).
Proof.
  rewrite rendered_drawing, index_labels_drawing, qubit_lines_drawing.
  rewrite !map_map. cbn [fst snd]. split; [reflexivity |].
  rewrite range_from_zero, map_map.
  apply NoDup_map_injective; [| apply seq_NoDup].
  intros a b E. cbn in E. injection E as E.
  apply append_inj_l, str_inj in E. lia.
Qed.

(** X10: the energies [run_vqe_qse] returns, and whether it raises, depend on
    [exact_energy] alone: the operator, the qubit and particle counts and the
    nuclear repulsion energy never enter them. *)
Theorem energies_depend_on_exact_energy_only
    (qubit_op1 qubit_op2 : MockSparsePauliOp) (n1 n2 : Z)
    (num_particles1 num_particles2 : value)
    (nuclear_repulsion1 nuclear_repulsion2 e : float) :
  match run_vqe_qse qubit_op1 n1 num_particles1 nuclear_repulsion1 e,
        run_vqe_qse qubit_op2 n2 num_particles2 nuclear_repulsion2 e with
  | inr (_, E_vqe1, E_qse1, E_final1), inr (_, E_vqe2, E_qse2, E_final2) =>
      E_vqe1 = E_vqe2 /\ E_qse1 = E_qse2 /\ E_final1 = E_final2
  | inl x1, inl x2 => x1 = x2
  | _, _ => False
  end.
Proof.
  unfold run_vqe_qse, truediv.
  destruct (PrimFloat.is_zero _); cbn; auto.
Qed.

(** X11: whenever [run_vqe_qse] returns, the ansatz it returns carries the
    qubit and particle counts it was given and 16 parameters, whatever the
    energies; the figure the script draws from it (decompose, then draw) has
    one line per qubit. *)
Theorem returned_ansatz_draws_num_qubits (qubit_op : MockSparsePauliOp)
    (n : Z) (num_particles : value) (nuclear_repulsion_energy e : float)
    (ansatz : MockUCCSDAnsatz) (E_vqe E_qse E_final : float) (st : Pyplot) :
  run_vqe_qse qubit_op n num_particles nuclear_repulsion_energy e
  = inr (ansatz, E_vqe, E_qse, E_final) ->
  ansatz = mkAnsatz 16 n num_particles
  /\ List.length
       (qubit_lines
          (rendered (decompose ansatz) [VStr "mpl"]
             [("idle_wires", VBool false); ("fold", VInt (-1))] st))
     = Z.to_nat n.
Proof.
  unfold run_vqe_qse, truediv.
  destruct (PrimFloat.is_zero _); [discriminate |].
  intro E. injection E as <- _ _ _.
  split; [reflexivity |].
  rewrite rendered_drawing, qubit_lines_drawing, range_from_zero.
  rewrite !length_map, length_seq. reflexivity.
Qed.

Lemma returned_ansatz_draws_num_qubits_witness :
  List.length
    (qubit_lines
       (rendered (decompose (init 8 (VTuple [VInt 4; VInt 4]))) [VStr "mpl"]
          [("idle_wires", VBool false); ("fold", VInt (-1))] []))
  = Z.to_nat 8.
Proof.
  apply (@returned_ansatz_draws_num_qubits (MockSparsePauliOp_init 8) 8
           (VTuple [VInt 4; VInt 4]) 5.922055%float (-40.176466)%float
           (init 8 (VTuple [VInt 4; VInt 4]))
           (-40.176466 + 0.045)%float (-40.176466 + 0.002)%float
           ((-40.176466 + 0.002) + (-0.0019))%float []).
  vm_compute. reflexivity.
Defined.

(** X12: on a non-finite [exact_energy] [run_vqe_qse] does not raise.  For
    plus or minus infinity the three energies it returns are that infinity,
    so the final corrected energy equals the exact one; for NaN they are
    NaN. *)
Theorem non_finite_exact_energy (qubit_op : MockSparsePauliOp) (n : Z)
    (num_particles : value) (nuclear_repulsion_energy : float) :
  run_vqe_qse qubit_op n num_particles nuclear_repulsion_energy
    PrimFloat.infinity
  = inr (init n num_particles, PrimFloat.infinity, PrimFloat.infinity,
         PrimFloat.infinity)
  /\ run_vqe_qse qubit_op n num_particles nuclear_repulsion_energy
       PrimFloat.neg_infinity
     = inr (init n num_particles, PrimFloat.neg_infinity,
            PrimFloat.neg_infinity, PrimFloat.neg_infinity)
  /\ run_vqe_qse qubit_op n num_particles nuclear_repulsion_energy
       PrimFloat.nan
     = inr (init n num_particles, PrimFloat.nan, PrimFloat.nan,
            PrimFloat.nan)
  /\ PrimFloat.eqb PrimFloat.infinity PrimFloat.infinity = true
  /\ PrimFloat.eqb PrimFloat.nan PrimFloat.nan = false.
Proof. repeat split; reflexivity. Qed.

Lemma length_append (s t : string) :
  String.length (s ++ t)%string = (String.length s + String.length t)%nat.
Proof. induction s as [| a s IH]; cbn; [| rewrite IH]; reflexivity. Qed.

Lemma append_inj_suffix (s1 s2 t : string) :
  (s1 ++ t)%string = (s2 ++ t)%string -> s1 = s2.
Proof.
  revert s2. induction s1 as [| a s1 IH]; intros [| b s2] E.
  - reflexivity.
  - apply (f_equal String.length) in E. cbn in E.
    rewrite length_append in E. lia.
  - apply (f_equal String.length) in E. cbn in E.
    rewrite length_append in E. lia.
  - cbn in E. injection E as -> E. f_equal. apply IH. exact E.
Qed.

(** X13: the printed form of a [MockSparsePauliOp] tells its qubit count: two
    operators print alike exactly when they were built with the same
    [num_q].  Its Pauli strings are the same four two-letter strings for
    every [num_q]. *)
Theorem pauli_op_repr_tells_num_qubits (a b : Z) :
  (repr (MockSparsePauliOp_init a) = repr (MockSparsePauliOp_init b)
   <-> a = b)
  /\ primitive_strings (MockSparsePauliOp_init a) tt
     = primitive_strings (MockSparsePauliOp_init b) tt
  /\ Forall (fun s => String.length s = 2%nat)
            (primitive_strings (MockSparsePauliOp_init a) tt)
  /\ List.length (primitive_strings (MockSparsePauliOp_init a) tt) = 4%nat.
Proof.
  split; [| repeat split; repeat constructor].
  split; [| intros ->; reflexivity].
  unfold repr, MockSparsePauliOp_init. cbn [op_num_qubits]. intro E.
  cbn in E. injection E as E.
  apply append_inj_suffix, str_inj in E. exact E.
Qed.

Lemma boxes_drawing (n : Z) :
  boxes (drawing n)
  = flat_map (fun x_rot =>
                map (fun i => (x_rot, sub (Int (i + 1)) (Float (1 # 4)),
                               Float 1, Float (1 # 2)))
                    (range 0 n 1))
             [Float 1; Float (9 # 2); Float 9]
    ++ map (fun i => (Float (35 # 2), sub (Int (i + 1)) (Float (1 # 4)),
                      Float (3 # 2), Float (1 # 2)))
           (range 0 n 1).
Proof.
  unfold boxes.
  read_figure (@nil (num * num * num * num)) (@nil (num * num * num * num))
    (@nil (num * num * num * num))
    (fun _ : Z => @nil (num * num * num * num))
    (fun i : Z => [(Float (35 # 2), sub (Int (i + 1)) (Float (1 # 4)),
                    Float (3 # 2), Float (1 # 2))])
    (fun (_ : Z) (x : num) (i : Z) =>
       [(x, sub (Int (i + 1)) (Float (1 # 4)), Float 1, Float (1 # 2))])
    (fun (_ : string) (_ : num) (_ : Z) => @nil (num * num * num * num)).
  cbn [flat_map]. rewrite ?app_nil_r, <- ?app_assoc. reflexivity.
Qed.

(** X14: every box the renderer draws, rotation gate or measurement block,
    is half a unit tall and centred on a qubit line, so boxes on different
    lines never overlap; and every box is one of those two kinds. *)
Theorem boxes_are_centred_on_lines (self : MockUCCSDAnsatz)
    (args : list value) (kwds : list (string * value)) (st : Pyplot) :
  Forall (fun b =>
            match b with
            | (x, y, width, height) =>
                (to_Q height == 1 # 2)%Q
                /\ exists line,
                     In line (qubit_lines (rendered self args kwds st))
                     /\ (to_Q y + to_Q height / 2 == to_Q line)%Q
            end)
         (boxes (rendered self args kwds st))
  /\ List.length (boxes (rendered self args kwds st))
     = (List.length (rotation_boxes (rendered self args kwds st))
        + List.length (measurement_boxes (rendered self args kwds st)))%nat.
Proof.
  rewrite rendered_drawing, boxes_drawing, qubit_lines_drawing,
    rotation_boxes_drawing, measurement_boxes_drawing.
  split.
  - cbn [flat_map]. rewrite ?app_nil_r. repeat rewrite Forall_app.
    repeat split; apply Forall_forall; intros b Hb;
      apply in_map_iff in Hb; destruct Hb as [i [<- Hi]];
      (split; [reflexivity |]); exists (Int (i + 1));
      (split; [apply in_map_iff; exists i; split; [reflexivity | exact Hi] |]);
      cbn [to_Q sub]; rewrite Qred_correct;
      cbv [Qeq Qplus Qminus Qopp Qdiv Qmult Qinv inject_Z Qnum Qden Pos.mul];
      lia.
  - cbn [flat_map]. rewrite !length_app, !length_map. cbn [List.length]. lia.
Qed.
